(** * nova/virt/xl/driver.py: the Xen [xl] command-line driver

    A shallow embedding of [XLDirectDriver] and the properties of its
    lifecycle, query and parsing operations.

    Python [str] values are modelled by [string]: sequences of code points
    below 256.  Python [int] values are modelled by [Z].  The external
    world (the processes started through [subprocess.run]) is an oracle that
    the driver's operations are parameterised by; the operations themselves
    run in a small state-and-exception monad whose state is the trace of
    the events they caused. *)

From Stdlib Require Import ZArith List String Ascii Bool Lia.
From Stdlib Require Import DecimalString DecimalZ DecimalFacts.
From Stdlib Require Import PrimFloat.
Import ListNotations.

Open Scope string_scope.
Open Scope list_scope.
Open Scope Z_scope.

(** ** Python string primitives used by the driver *)
Module PyStr.

(** [str.isspace] on one character, for code points below 256. *)
Definition is_space (c : ascii) : bool :=
  let n := N_of_ascii c in
  ((9 <=? n) && (n <=? 13) || (28 <=? n) && (n <=? 32)
   || (n =? 133) || (n =? 160))%N.

(** The line boundaries of [str.splitlines], for code points below 256:
    LF, VT, FF, CR, FS, GS, RS and NEL. *)
Definition is_linebreak (c : ascii) : bool :=
  let n := N_of_ascii c in
  ((10 <=? n) && (n <=? 13) || (28 <=? n) && (n <=? 30) || (n =? 133))%N.

Definition LF : ascii := ascii_of_N 10.
Definition CR : ascii := ascii_of_N 13.

(** Put [c] in front of the first piece of [pieces]. *)
Definition cons_first (c : ascii) (pieces : list string) : list string :=
  match pieces with
  | [] => [String c ""]
  | p :: ps => String c p :: ps
  end.

(** [s.splitlines()]: CR LF is one boundary, and a final boundary opens no
    further line. *)
Fixpoint splitlines (s : string) : list string :=
  match s with
  | "" => []
  | String c s' =>
      if is_linebreak c then
        if Ascii.eqb c CR then
          match s' with
          | String c' s'' =>
              if Ascii.eqb c' LF then "" :: splitlines s''
              else "" :: splitlines s'
          | "" => [""]
          end
        else "" :: splitlines s'
      else cons_first c (splitlines s')
  end.

(** [s.split()]: the maximal runs of non-whitespace characters. *)
Fixpoint split (s : string) : list string :=
  match s with
  | "" => []
  | String c s' =>
      if is_space c then split s'
      else match s' with
           | "" => [String c ""]
           | String c' _ =>
               if is_space c' then String c "" :: split s'
               else cons_first c (split s')
           end
  end.

(** [s.split(sep)] for a one-character separator. *)
Fixpoint split_on (sep : ascii) (s : string) : list string :=
  match s with
  | "" => [""]
  | String c s' =>
      if Ascii.eqb c sep then "" :: split_on sep s'
      else cons_first c (split_on sep s')
  end.

Fixpoint lstrip (s : string) : string :=
  match s with
  | "" => ""
  | String c s' => if is_space c then lstrip s' else s
  end.

Fixpoint rstrip (s : string) : string :=
  match s with
  | "" => ""
  | String c s' =>
      match rstrip s' with
      | "" => if is_space c then "" else String c ""
      | r => String c r
      end
  end.

(** [s.strip()] *)
Definition strip (s : string) : string := rstrip (lstrip s).

(** [sub in s] *)
Fixpoint contains (sub s : string) : bool :=
  String.prefix sub s ||
  match s with
  | "" => false
  | String _ s' => contains sub s'
  end.

(** [sep.join(parts)] *)
Definition join (sep : string) (parts : list string) : string :=
  String.concat sep parts.

(** [s * n], for [n >= 0]. *)
Fixpoint repeat (s : string) (n : nat) : string :=
  match n with
  | O => ""
  | S n' => String.append s (repeat s n')
  end.

(** [str(z)] for an [int]. *)
Definition of_int (z : Z) : string := NilZero.string_of_int (Z.to_int z).

End PyStr.

(** ** Exceptions *)

(** Why the operating system could not start a process. *)
Inductive oserror : Type :=
| FileNotFoundError
| PermissionError.

(** The exception classes that the driver raises, catches or lets through.
    All of them derive from Python's [Exception]. [NovaException] and
    [InstanceNotFound] are the classes of [nova.exception] (the execution
    error and the not-found error of the driver's callers), each with the
    argument it is raised with; [CalledProcessError] is the class of
    [subprocess]; the others are built in. *)
Inductive exn : Type :=
| NovaException (message : option string)
| InstanceNotFound (instance_id : string)
| CalledProcessError (returncode : Z) (cmd : list string)
                     (output stderr : option string)
| OSError (e : oserror)
| JSONDecodeError
| IndexError
| KeyError
| TypeError
| ValueError
| AttributeError.

(** ** The monad of driver operations *)

Inductive log_level : Type := DEBUG | WARNING | ERROR.

(** What an operation does to the outside: starting a process (whether or
    not the process could be started) and writing a log record. *)
Inductive event : Type :=
| Exec (argv : list string)
| Log (level : log_level) (fmt : string).

Definition trace := list event.

Inductive result (A : Type) : Type :=
| Ok (a : A)
| Raise (e : exn).
Arguments Ok {A} a.
Arguments Raise {A} e.

Definition M (A : Type) : Type := trace -> result A * trace.

Definition ret {A} (a : A) : M A := fun t => (Ok a, t).

Definition raise {A} (e : exn) : M A := fun t => (Raise e, t).

Definition bind {A B} (m : M A) (k : A -> M B) : M B :=
  fun t =>
    match m t with
    | (Ok a, t') => k a t'
    | (Raise e, t') => (Raise e, t')
    end.

Definition emit (ev : event) : M unit := fun t => (Ok tt, t ++ [ev]).

(** [try: body / except <classes>: handler]: [handler e] is [None] when [e]
    is not an instance of the classes of the clause. *)
Definition try_except {A} (body : M A) (handler : exn -> option (M A)) : M A :=
  fun t =>
    match body t with
    | (Ok a, t') => (Ok a, t')
    | (Raise e, t') =>
        match handler e with
        | Some h => h t'
        | None => (Raise e, t')
        end
    end.

(** Lift a pure computation that may raise. *)
Definition lift {A} (r : result A) : M A := fun t => (r, t).

Declare Scope monad_scope.
Delimit Scope monad_scope with monad.
Notation "x <- c1 ;; c2" := (bind c1 (fun x => c2))
  (at level 61, c1 at next level, right associativity) : monad_scope.
Notation "c1 ;; c2" := (bind c1 (fun _ => c2))
  (at level 61, right associativity) : monad_scope.
Open Scope monad_scope.

(** ** Python values *)

(** The values that [json.loads] produces. A [dict] is kept as the list of
    its items, keys distinct, in insertion order. *)
#[warnings="-register-all"]
Inductive pyval : Type :=
| PyNone
| PyBool (b : bool)
| PyInt (z : Z)
| PyFloat (f : float)
| PyStr (s : string)
| PyList (items : list pyval)
| PyDict (items : list (string * pyval)).

(** [bool(v)] *)
Definition truthy (v : pyval) : bool :=
  match v with
  | PyNone => false
  | PyBool b => b
  | PyInt z => negb (z =? 0)
  | PyFloat f => negb (PrimFloat.eqb f PrimFloat.zero)
  | PyStr s => negb (String.eqb s "")
  | PyList items => match items with [] => false | _ => true end
  | PyDict items => match items with [] => false | _ => true end
  end.

(** [seq[i]] on a sequence of length [len]: the position that the index
    [i] denotes, a negative index counting from the end. *)
Definition seq_index (len : nat) (i : Z) : option nat :=
  let i' := if i <? 0 then i + Z.of_nat len else i in
  if (0 <=? i') && (i' <? Z.of_nat len) then Some (Z.to_nat i') else None.

(** [v[i]] for an [int] subscript. No key of a [dict] decoded from JSON is
    an [int]. *)
Definition getitem_int (v : pyval) (i : Z) : result pyval :=
  match v with
  | PyList items =>
      match seq_index (List.length items) i with
      | Some n => match nth_error items n with
                  | Some x => Ok x
                  | None => Raise IndexError
                  end
      | None => Raise IndexError
      end
  | PyStr s =>
      match seq_index (String.length s) i with
      | Some n => match String.get n s with
                  | Some c => Ok (PyStr (String c ""))
                  | None => Raise IndexError
                  end
      | None => Raise IndexError
      end
  | PyDict _ => Raise KeyError
  | PyNone | PyBool _ | PyInt _ | PyFloat _ => Raise TypeError
  end.

Fixpoint assoc {A} (k : string) (items : list (string * A)) : option A :=
  match items with
  | [] => None
  | (k', a) :: rest => if String.eqb k k' then Some a else assoc k rest
  end.

(** [v[k]] for a [str] subscript. *)
Definition getitem_str (v : pyval) (k : string) : result pyval :=
  match v with
  | PyDict items =>
      match assoc k items with
      | Some x => Ok x
      | None => Raise KeyError
      end
  | _ => Raise TypeError
  end.

(** [oslo_utils.units.Ki] *)
Definition Ki : Z := 1024.

(** [v * units.Ki] *)
Definition mul_Ki (v : pyval) : result pyval :=
  match v with
  | PyInt z => Ok (PyInt (z * Ki))
  | PyBool b => Ok (PyInt ((if b then 1 else 0) * Ki))
  | PyFloat f => Ok (PyFloat (PrimFloat.mul f 1024%float))
  | PyStr s => Ok (PyStr (PyStr.repeat s (Z.to_nat Ki)))
  | PyList items => Ok (PyList (List.concat (List.repeat items (Z.to_nat Ki))))
  | PyNone | PyDict _ => Raise TypeError
  end.

(** [int(s)] for a [str] in base 10: surrounding whitespace, one optional
    sign, then decimal digits, single underscores allowed between digits.
    Around the digits of an ASCII string [int] skips the whitespace of C
    (tab to carriage return, and the space); in a string that is not
    ASCII it skips what [str.isspace] accepts. The interpreter's limit on
    the number of digits of a conversion is outside the model. *)
Module PyInt.

(** The whitespace of C's [isspace]. *)
Definition is_c_space (c : ascii) : bool :=
  let n := N_of_ascii c in
  ((9 <=? n) && (n <=? 13) || (n =? 32))%N.

Fixpoint is_ascii (s : string) : bool :=
  match s with
  | "" => true
  | String c s' => (N_of_ascii c <? 128)%N && is_ascii s'
  end.

(** The characters that [int] skips around the digits of [s]. *)
Definition skipped (s : string) : ascii -> bool :=
  if is_ascii s then is_c_space else PyStr.is_space.

Fixpoint lstrip_by (P : ascii -> bool) (s : string) : string :=
  match s with
  | "" => ""
  | String c s' => if P c then lstrip_by P s' else s
  end.

Fixpoint rstrip_by (P : ascii -> bool) (s : string) : string :=
  match s with
  | "" => ""
  | String c s' =>
      match rstrip_by P s' with
      | "" => if P c then "" else String c ""
      | r => String c r
      end
  end.

(** [s] without the whitespace that [int] skips around it. *)
Definition trimmed (s : string) : string :=
  rstrip_by (skipped s) (lstrip_by (skipped s) s).

Definition digit (c : ascii) : option Z :=
  let n := N_of_ascii c in
  if ((48 <=? n) && (n <=? 57))%N then Some (Z.of_N n - 48) else None.

Definition underscore : ascii := "_"%char.

(** The digits of [s] after a first digit has been read into [acc];
    [after_us] says that the last character was an underscore. *)
Fixpoint digits (s : string) (acc : Z) (after_us : bool) : option Z :=
  match s with
  | "" => if after_us then None else Some acc
  | String c s' =>
      match digit c with
      | Some d => digits s' (acc * 10 + d) false
      | None =>
          if Ascii.eqb c underscore && negb after_us then digits s' acc true
          else None
      end
  end.

Definition unsigned (s : string) : option Z :=
  match s with
  | "" => None
  | String c s' =>
      match digit c with
      | Some d => digits s' d false
      | None => None
      end
  end.

Definition parse (s : string) : result Z :=
  let r :=
    match trimmed s with
    | "" => None
    | String c s' =>
        if Ascii.eqb c "-" then option_map Z.opp (unsigned s')
        else if Ascii.eqb c "+" then unsigned s'
        else unsigned (String c s')
    end in
  match r with
  | Some z => Ok z
  | None => Raise ValueError
  end.

End PyInt.

(** ** The driver's data *)

(** Modelled from the spec: the canonical power states of
    [nova.compute.power_state], a module that is not part of the driver
    file. *)
Inductive power_state : Type :=
| NOSTATE
| RUNNING
| PAUSED
| SHUTDOWN
| CRASHED.

(** [POWER_STATE_MAP] *)
Definition POWER_STATE_MAP : list (string * power_state) :=
  [ ("running", RUNNING);
    ("blocked", RUNNING);
    ("paused", PAUSED);
    ("shutdown", SHUTDOWN);
    ("crashed", CRASHED);
    ("dying", CRASHED) ].

(** [POWER_STATE_MAP.get(token, default)] for a [str] key. *)
Definition POWER_STATE_MAP_get (token : string) (default : power_state)
  : power_state :=
  match assoc token POWER_STATE_MAP with
  | Some st => st
  | None => default
  end.

(** [POWER_STATE_MAP.get(state, default)] for any decoded value: a [list]
    or a [dict] cannot be hashed, and a value that is not a [str] equals no
    key. *)
Definition POWER_STATE_MAP_get_val (state : pyval) (default : power_state)
  : result power_state :=
  match state with
  | PyStr token => Ok (POWER_STATE_MAP_get token default)
  | PyList _ | PyDict _ => Raise TypeError
  | _ => Ok default
  end.

(** [instance.flavor] *)
Record Flavor : Type := {
  flavor_memory_mb : Z;
  flavor_vcpus : Z
}.

(** The attributes of [instance] that the driver reads. *)
Record Instance : Type := {
  name : string;
  uuid : string;
  flavor : Flavor
}.

(** The dict that [get_info] returns. *)
Record DomainInfo : Type := {
  state : power_state;
  max_mem : pyval;
  mem : pyval;
  num_cpu : pyval;
  cpu_time : Z
}.

(** The dict that [get_available_resource] returns. *)
Record HostResources : Type := {
  vcpus : Z;
  vcpus_used : Z;
  memory_mb : Z;
  memory_mb_used : Z;
  local_gb : Z;
  local_gb_used : Z;
  disk_available_least : Z;
  hypervisor_type : string;
  hypervisor_version : Z;
  hypervisor_hostname : string;
  cpu_info : string;
  supported_instances : list string;
  numa_topology : option unit
}.

(** Sequencing of pure computations that may raise. *)
Definition rbind {A B} (r : result A) (k : A -> result B) : result B :=
  match r with
  | Ok a => k a
  | Raise e => Raise e
  end.

Notation "x <-! r ;; k" := (rbind r (fun x => k))
  (at level 61, r at next level, right associativity) : monad_scope.

(** [l[i]] on a list of strings. *)
Definition list_getitem (l : list string) (i : Z) : result string :=
  match seq_index (List.length l) i with
  | Some n => match nth_error l n with
              | Some x => Ok x
              | None => Raise IndexError
              end
  | None => Raise IndexError
  end.

(** An attribute access or a method call on the output of a process:
    [None] when the output was not captured. *)
Definition captured (o : option string) : result string :=
  match o with
  | Some s => Ok s
  | None => Raise AttributeError
  end.

(** [os.path.join(a, b)] on POSIX. *)
Definition os_path_join (a b : string) : string :=
  if String.prefix "/" b then b
  else if String.eqb a "" || String.prefix "/" (String.substring (String.length a - 1) 1 a)
       then String.append a b
       else String.append a (String.append "/" b).

Definition NL : string := String PyStr.LF "".

(** ** The external world *)

(** The outcome of starting a process and waiting for it. *)
Inductive proc_outcome : Type :=
| Exited (returncode : Z) (stdout stderr : string)
| NotStarted (e : oserror).

(** [subprocess.CompletedProcess] *)
Record CompletedProcess : Type := {
  args : list string;
  returncode : Z;
  stdout : option string;
  stderr : option string
}.

Definition xl_path : string := "/usr/local/sbin/xl".

Section Driver.

(** The world: what a process with the given command line does, given the
    events so far. *)
Variable os_run : trace -> list string -> proc_outcome.

(** [subprocess.run(argv, check=True)], with [stdout=PIPE], [stderr=PIPE]
    and [universal_newlines=True] when [piped]. *)
Definition subprocess_run (piped : bool) (argv : list string)
  : M CompletedProcess :=
  fun t =>
    let t' := t ++ [Exec argv] in
    match os_run t argv with
    | NotStarted e => (Raise (OSError e), t')
    | Exited rc out err =>
        let out' := if piped then Some out else None in
        let err' := if piped then Some err else None in
        if rc =? 0 then
          (Ok {| args := argv; returncode := rc;
                 stdout := out'; stderr := err' |}, t')
        else (Raise (CalledProcessError rc argv out' err'), t')
    end.

(** [XLDirectDriver._execute_xl] *)
Definition _execute_xl (cmd : list string) : M CompletedProcess :=
  let xl_cmd := xl_path :: cmd in
  emit (Log DEBUG "Executing: %s") ;;
  try_except (subprocess_run true xl_cmd)
    (fun e =>
       match e with
       | CalledProcessError _ _ _ err =>
           Some (emit (Log ERROR "xl command failed: %s") ;;
                 raise (NovaException err))
       | _ => None
       end).

(** [XLDirectDriver._get_xl_config]; [image_meta] and [network_info] are
    not read. *)
Definition _get_xl_config (instance : Instance) : string :=
  let memory_mb := flavor_memory_mb (flavor instance) in
  let vcpus := flavor_vcpus (flavor instance) in
  let cfg :=
    [ ("name = '" ++ name instance ++ "'")%string;
      ("memory = " ++ PyStr.of_int memory_mb)%string;
      ("vcpus = " ++ PyStr.of_int vcpus)%string;
      ("uuid = '" ++ uuid instance ++ "'")%string;
      "builder = 'hvm'";
      "boot = 'c'";
      "acpi = 1";
      "apic = 1";
      ("disk = ['phy:/dev/vg0/" ++ name instance ++ ",hda,w']")%string;
      "vnc = 1";
      "vnclisten = '0.0.0.0'" ] in
  PyStr.join NL cfg.

(** [XLDirectDriver.destroy] *)
Definition destroy (instance : Instance) (destroy_disks : bool) : M unit :=
  try_except
    (_execute_xl ["destroy"; name instance] ;; ret tt)
    (fun e => Some (emit (Log WARNING "Instance destroy failed: %s"))) ;;
  if destroy_disks then
    let instance_dir := os_path_join "/etc/xen" (name instance) in
    try_except
      (subprocess_run false ["rm"; "-rf"; instance_dir] ;; ret tt)
      (fun e =>
         match e with
         | CalledProcessError _ _ _ _ =>
             Some (emit (Log WARNING "Failed to remove instance directory: %s"))
         | _ => None
         end)
  else ret tt.

(** [XLDirectDriver.reboot] *)
Definition reboot (instance : Instance) (reboot_type : string) : M unit :=
  if String.eqb reboot_type "SOFT" then
    _execute_xl ["reboot"; name instance] ;; ret tt
  else
    _execute_xl ["reset"; name instance] ;; ret tt.

(** [json.loads], of the Python standard library. *)
Variable json_loads : string -> result pyval.

(** The statements of [get_info] under its [try]. *)
Definition get_info_body (instance : Instance) : M DomainInfo :=
  out <- _execute_xl ["list"; "-l"; name instance] ;;
  data <- lift (match stdout out with
                | Some s => json_loads s
                | None => Raise TypeError
                end) ;;
  if negb (truthy data) then raise (InstanceNotFound (uuid instance))
  else
    domain_info <- lift (getitem_int data 0) ;;
    state <- lift (getitem_str domain_info "state") ;;
    lift (st <-! POWER_STATE_MAP_get_val state NOSTATE ;;
          maxmem <-! getitem_str domain_info "maxmem" ;;
          max_mem <-! mul_Ki maxmem ;;
          mem0 <-! getitem_str domain_info "mem" ;;
          mem <-! mul_Ki mem0 ;;
          num_cpu <-! getitem_str domain_info "vcpus" ;;
          Ok {| state := st; max_mem := max_mem; mem := mem;
                num_cpu := num_cpu; cpu_time := 0 |}).

(** [XLDirectDriver.get_info]: every exception of the body is an instance
    of [Exception], and is replaced by [InstanceNotFound]. *)
Definition get_info (instance : Instance) : M DomainInfo :=
  try_except (get_info_body instance)
    (fun e =>
       Some (emit (Log ERROR "Error getting instance info") ;;
             raise (InstanceNotFound (uuid instance)))).

(** The loop of [list_instances] over the lines after the header. *)
Fixpoint list_instances_loop (lines : list string) (instances : list string)
  : result (list string) :=
  match lines with
  | [] => Ok instances
  | line :: rest =>
      name <-! list_getitem (PyStr.split line) 0 ;;
      list_instances_loop rest (instances ++ [name])
  end.

(** [XLDirectDriver.list_instances] *)
Definition list_instances : M (list string) :=
  out <- _execute_xl ["list"] ;;
  text <- lift (captured (stdout out)) ;;
  lift (list_instances_loop (List.tl (PyStr.splitlines text)) []).

(** The loop of [get_available_resource] over the lines of the memory
    information, from the counters so far. *)
Fixpoint memory_info_loop (lines : list string)
                          (total_memory_kb free_memory_kb : Z)
  : result (Z * Z) :=
  match lines with
  | [] => Ok (total_memory_kb, free_memory_kb)
  | line :: rest =>
      if PyStr.contains "total_memory" line then
        field <-! list_getitem (PyStr.split_on ":" line) 1 ;;
        v <-! PyInt.parse (PyStr.strip field) ;;
        memory_info_loop rest v free_memory_kb
      else if PyStr.contains "free_memory" line then
        field <-! list_getitem (PyStr.split_on ":" line) 1 ;;
        v <-! PyInt.parse (PyStr.strip field) ;;
        memory_info_loop rest total_memory_kb v
      else memory_info_loop rest total_memory_kb free_memory_kb
  end.

(** [XLDirectDriver.get_available_resource] *)
Definition get_available_resource (nodename : string) : M HostResources :=
  memory_info <- _execute_xl ["info"; "-n"] ;;
  memory_text <- lift (captured (stdout memory_info)) ;;
  counters <- lift (memory_info_loop (PyStr.splitlines memory_text) 0 0) ;;
  let '(total_memory_kb, free_memory_kb) := counters in
  cpu_info <- _execute_xl ["info"; "-n"; "cpu"] ;;
  cpu_text <- lift (captured (stdout cpu_info)) ;;
  let num_cpus := Z.of_nat (List.length (PyStr.splitlines cpu_text)) in
  ret {| vcpus := num_cpus;
         vcpus_used := 0;
         memory_mb := total_memory_kb / 1024;
         memory_mb_used := (total_memory_kb - free_memory_kb) / 1024;
         local_gb := 0;
         local_gb_used := 0;
         disk_available_least := 0;
         hypervisor_type := "xen";
         hypervisor_version := 4181;
         hypervisor_hostname := nodename;
         cpu_info := "{}";
         supported_instances := [];
         numa_topology := None |}.

End Driver.

(** ** The file system, and the operations that use it *)

(** The two file operations of [spawn]: [os.makedirs(path, exist_ok=True)],
    and the [with open(path, 'w') as f: f.write(content)] block, which
    opens, writes and closes. *)
Inductive fs_op : Type :=
| MakeDirs (path : string)
| WriteFile (path content : string).

(** The state of an operation that touches files: the file operations
    attempted so far, each with its outcome, and the trace of processes
    and log records. *)
Record sys : Type := {
  files : list (fs_op * option oserror);
  procs : trace
}.

Definition MF (A : Type) : Type := sys -> result A * sys.

Definition fret {A} (a : A) : MF A := fun s => (Ok a, s).

Definition fbind {A B} (m : MF A) (k : A -> MF B) : MF B :=
  fun s =>
    match m s with
    | (Ok a, s') => k a s'
    | (Raise e, s') => (Raise e, s')
    end.

(** An operation on processes, run where files are touched as well. *)
Definition on_procs {A} (m : M A) : MF A :=
  fun s =>
    let (r, t') := m (procs s) in
    (r, {| files := files s; procs := t' |}).

Declare Scope fs_scope.
Delimit Scope fs_scope with fs.
Notation "x <- c1 ;; c2" := (fbind c1 (fun x => c2))
  (at level 61, c1 at next level, right associativity) : fs_scope.
Notation "c1 ;; c2" := (fbind c1 (fun _ => c2))
  (at level 61, right associativity) : fs_scope.

Section Provisioning.

Variable os_run : trace -> list string -> proc_outcome.

(** The file system: whether an operation succeeds ([None]) or which
    error the operating system reports, given the state so far. Errors of
    other classes than those of [oserror] are outside the model. *)
Variable fs_run : sys -> fs_op -> option oserror.

(** One file operation. *)
Definition fs_do (op : fs_op) : MF unit :=
  fun s =>
    let outcome := fs_run s op in
    let s' := {| files := files s ++ [(op, outcome)]; procs := procs s |} in
    match outcome with
    | None => (Ok tt, s')
    | Some e => (Raise (OSError e), s')
    end.

(** [XLDirectDriver.spawn]; of its arguments only [instance] and
    [power_on] are read, besides those that [_get_xl_config] ignores. *)
Definition spawn (instance : Instance) (power_on : bool) : MF unit :=
  (let instance_name := name instance in
   let instance_dir := os_path_join "/etc/xen" instance_name in
   fs_do (MakeDirs instance_dir) ;;
   let cfg := _get_xl_config instance in
   let cfg_path := os_path_join instance_dir "config" in
   fs_do (WriteFile cfg_path cfg) ;;
   on_procs (_execute_xl os_run ["create"; cfg_path]) ;;
   if negb power_on then
     on_procs (_execute_xl os_run ["pause"; instance_name]) ;; fret tt
   else fret tt)%fs.

(** [str(v)], which is also how an f-string formats [v]; a [str] is
    formatted as itself. *)
Variable py_str : pyval -> string.

(** [XLDirectDriver.attach_interface]; [vif] is a dict, and [image_meta]
    is not read. *)
Definition attach_interface (instance : Instance) (vif : pyval) : M unit :=
  address <- lift (getitem_str vif "address") ;;
  let mac_arg := ("mac=" ++ py_str address)%string in
  network <- lift (getitem_str vif "network") ;;
  bridge <- lift (getitem_str network "bridge") ;;
  let bridge_arg := ("bridge=" ++ py_str bridge)%string in
  _execute_xl os_run ["network-attach"; name instance; mac_arg; bridge_arg] ;;
  ret tt.

(** [XLDirectDriver.detach_interface] *)
Definition detach_interface (instance : Instance) (vif : pyval) : M unit :=
  id <- lift (getitem_str vif "id") ;;
  _execute_xl os_run ["network-detach"; name instance; py_str id] ;;
  ret tt.

End Provisioning.

(** ** Observations on traces *)

(** The command lines of the processes that a trace started, in order. *)
Fixpoint execs (t : trace) : list (list string) :=
  match t with
  | [] => []
  | Exec argv :: t' => argv :: execs t'
  | Log _ _ :: t' => execs t'
  end.

(** The trace at the moment [_execute_xl] starts its process. *)
Definition at_exec (t : trace) : trace := t ++ [Log DEBUG "Executing: %s"].

(** The command line with which [destroy] removes the directory. *)
Definition rm_argv (instance : Instance) : list string :=
  ["rm"; "-rf"; os_path_join "/etc/xen" (name instance)].

(** ** Example worlds and instances *)

Definition lines (l : list string) : string := String.concat NL l.

Definition vm1 : Instance :=
  {| name := "vm1";
     uuid := "0f4c7a52-6d1e-4b8e-9a55-3c2f0e8b7d10";
     flavor := {| flavor_memory_mb := 512; flavor_vcpus := 2 |} |}.

(** A host on which every command succeeds. *)
Definition healthy_host (t : trace) (argv : list string) : proc_outcome :=
  match argv with
  | [_; "info"; "-n"] =>
      Exited 0 (lines ["total_memory : 8192"; "free_memory : 2048"]) ""
  | [_; "info"; "-n"; "cpu"] =>
      Exited 0 (lines ["cpu0"; "cpu1"; "cpu2"; "cpu3"]) ""
  | [_; "list"] =>
      Exited 0 (lines ["NAME STATE MEM VCPUS";
                       "vm1 running 512 2";
                       "vm2 paused 256 1"]) ""
  | _ => Exited 0 "" ""
  end.

(** A host on which [xl] fails with status 1 and [rm] fails with status 1. *)
Definition failing_host (t : trace) (argv : list string) : proc_outcome :=
  Exited 1 "" "libxl: error: domain not found".

(** The same failure of [xl], with status 2. *)
Definition failing_host_2 (t : trace) (argv : list string) : proc_outcome :=
  Exited 2 "" "libxl: error: domain not found".

(** A host on which no process can be started. *)
Definition broken_host (t : trace) (argv : list string) : proc_outcome :=
  NotStarted FileNotFoundError.

(** A host on which [xl] fails and [rm] cannot be started. *)
Definition host_without_rm (t : trace) (argv : list string) : proc_outcome :=
  match argv with
  | "rm" :: _ => NotStarted FileNotFoundError
  | _ => Exited 1 "" "libxl: error: domain not found"
  end.

(** A host whose memory information names neither counter. *)
Definition silent_host (t : trace) (argv : list string) : proc_outcome :=
  match argv with
  | [_; "info"; "-n"] =>
      Exited 0 (lines ["host : xen1"; "release : 5.15.0"; "xen_major : 4"]) ""
  | [_; "info"; "-n"; "cpu"] => Exited 0 (lines ["cpu0"; "cpu1"]) ""
  | _ => Exited 0 "" ""
  end.

(** A host whose listing is empty: not even the header line. *)
Definition host_empty_listing (t : trace) (argv : list string) : proc_outcome :=
  Exited 0 "" "".

(** A host whose listing has a line of blanks between two domains. *)
Definition host_blank_line (t : trace) (argv : list string) : proc_outcome :=
  Exited 0 (lines ["NAME STATE MEM VCPUS";
                   "vm1 running 512 2";
                   "   ";
                   "vm2 paused 256 1"]) "".

(** ** Vocabulary of the statements *)

(** The first whitespace-delimited token of a line, when it has one. *)
Definition first_token (line : string) : string :=
  List.hd "" (PyStr.split line).

(** A line with no character other than whitespace. *)
Fixpoint is_blank (s : string) : bool :=
  match s with
  | "" => true
  | String c s' => PyStr.is_space c && is_blank s'
  end.

(** The two command lines of [get_available_resource]. *)
Definition info_argv : list string := [xl_path; "info"; "-n"].
Definition cpu_argv : list string := [xl_path; "info"; "-n"; "cpu"].

(** The trace at the moment [get_available_resource] starts its second
    process, from the trace [t] at its beginning. *)
Definition at_cpu_exec (t : trace) : trace :=
  at_exec (at_exec t ++ [Exec info_argv]).

(** The snapshot that [get_available_resource] builds from its counters. *)
Definition snapshot (nodename : string) (total free : Z) (num_cpus : Z)
  : HostResources :=
  {| vcpus := num_cpus;
     vcpus_used := 0;
     memory_mb := total / 1024;
     memory_mb_used := (total - free) / 1024;
     local_gb := 0;
     local_gb_used := 0;
     disk_available_least := 0;
     hypervisor_type := "xen";
     hypervisor_version := 4181;
     hypervisor_hostname := nodename;
     cpu_info := "{}";
     supported_instances := [];
     numa_topology := None |}.

(** Whether the character [c] occurs in [s]. *)
Fixpoint has_char (c : ascii) (s : string) : bool :=
  match s with
  | "" => false
  | String c' s' => Ascii.eqb c' c || has_char c s'
  end.

Definition QUOTE : ascii := "'"%char.

(** The characters of the decimal form of an integer. *)
Definition digit_or_minus (c : ascii) : bool :=
  match PyInt.digit c with
  | Some _ => true
  | None => Ascii.eqb c "-"
  end.

Fixpoint all_chars (P : ascii -> bool) (s : string) : bool :=
  match s with
  | "" => true
  | String c s' => P c && all_chars P s'
  end.

(** ** Reading a configuration back

    The reader against which the round trip of [_get_xl_config] is stated.
    The configuration is a sequence of lines [key = value]; a value is
    either a string between single quotes, which ends at the next quote,
    or a decimal integer. *)
Module XlConfig.

(** The text after [prefix] in [s], when [s] starts with [prefix]. *)
Fixpoint strip_prefix (prefix s : string) : option string :=
  match prefix, s with
  | "", _ => Some s
  | String a prefix', String b s' =>
      if Ascii.eqb a b then strip_prefix prefix' s' else None
  | String _ _, "" => None
  end.

(** The value of the first line that assigns [key]. *)
Fixpoint lookup (key : string) (lines : list string) : option string :=
  match lines with
  | [] => None
  | line :: rest =>
      match strip_prefix (key ++ " = ")%string line with
      | Some value => Some value
      | None => lookup key rest
      end
  end.

(** The text before the first quote of [s], and the text after it. *)
Fixpoint until_quote (s : string) : option (string * string) :=
  match s with
  | "" => None
  | String c s' =>
      if Ascii.eqb c QUOTE then Some ("", s')
      else match until_quote s' with
           | Some (body, rest) => Some (String c body, rest)
           | None => None
           end
  end.

(** A value between single quotes, with nothing after the closing one. *)
Definition quoted (value : string) : option string :=
  match value with
  | "" => None
  | String c s' =>
      if Ascii.eqb c QUOTE then
        match until_quote s' with
        | Some (body, "") => Some body
        | _ => None
        end
      else None
  end.

(** A decimal integer value. *)
Definition integer (value : string) : option Z :=
  match PyInt.parse value with
  | Ok z => Some z
  | Raise _ => None
  end.

(** The [name], [memory] and [vcpus] fields of a configuration. *)
Definition read (artifact : string) : option (string * Z * Z) :=
  let lines := PyStr.split_on PyStr.LF artifact in
  match lookup "name" lines, lookup "memory" lines, lookup "vcpus" lines with
  | Some n, Some m, Some v =>
      match quoted n, integer m, integer v with
      | Some name, Some memory, Some vcpus => Some (name, memory, vcpus)
      | _, _, _ => None
      end
  | _, _, _ => None
  end.

End XlConfig.

(** The fields of an instance that the round trip is about. *)
Definition shape (instance : Instance) : string * Z * Z :=
  (name instance, flavor_memory_mb (flavor instance),
   flavor_vcpus (flavor instance)).

(** ** Readers under any policy for repeated keys

    A configuration may assign a key on several lines. [XlConfig.lookup]
    takes the first of them; a reader may as well take the last, or
    refuse. The readers below leave that policy open. *)

(** The values of the lines that assign [key], in order. *)
Fixpoint assignments (key : string) (lines : list string) : list string :=
  match lines with
  | [] => []
  | line :: rest =>
      match XlConfig.strip_prefix (key ++ " = ")%string line with
      | Some value => value :: assignments key rest
      | None => assignments key rest
      end
  end.

Definition first_wins (values : list string) : option string :=
  List.hd_error values.


(** The [name], [memory] and [vcpus] fields of a configuration, [choose]
    deciding between the values assigned to one key. *)
Definition read_with (choose : list string -> option string)
           (artifact : string) : option (string * Z * Z) :=
  let lines := PyStr.split_on PyStr.LF artifact in
  match choose (assignments "name" lines),
        choose (assignments "memory" lines),
        choose (assignments "vcpus" lines) with
  | Some n, Some m, Some v =>
      match XlConfig.quoted n, XlConfig.integer m, XlConfig.integer v with
      | Some name, Some memory, Some vcpus => Some (name, memory, vcpus)
      | _, _, _ => None
      end
  | _, _, _ => None
  end.



(** Two instances with different memory sizes and the same configuration:
    the identifier of the first spells out the rest of the configuration
    of the second, whose name spells out the first lines of the first. *)
Definition twin_head : string :=
  lines ["x'"; "memory = 1"; "vcpus = 1"; "uuid = '"].

Definition twin_middle : string :=
  lines ["'"; "builder = 'hvm'"; "boot = 'c'"; "acpi = 1"; "apic = 1";
         "disk = ['phy:/dev/vg0/x"].

Definition twin_a : Instance :=
  {| name := "x";
     uuid := (twin_middle ++ lines ["'"; "memory = 2"; "vcpus = 1"; "uuid = '"]
              ++ twin_middle ++ lines ["'"; "memory = 1"; "vcpus = 1"; "uuid = '"])%string;
     flavor := {| flavor_memory_mb := 1; flavor_vcpus := 1 |} |}.

Definition twin_b : Instance :=
  {| name := (twin_head ++ twin_middle)%string;
     uuid := "";
     flavor := {| flavor_memory_mb := 2; flavor_vcpus := 1 |} |}.


(** ** Further vocabulary and examples *)

(** What the loop of [get_available_resource] reads from a counter line:
    the text after the first colon, up to the next colon, as an integer. *)
Definition counter_value (line : string) : result Z :=
  field <-! list_getitem (PyStr.split_on ":" line) 1 ;;
  PyInt.parse (PyStr.strip field).

(** Whether a line is read as a counter by [get_available_resource]. *)
Definition is_counter_line (line : string) : bool :=
  PyStr.contains "total_memory" line || PyStr.contains "free_memory" line.



(** A host that reports its free memory only. *)
Definition host_free_only (t : trace) (argv : list string) : proc_outcome :=
  match argv with
  | [_; "info"; "-n"] => Exited 0 (lines ["free_memory : 2048"]) ""
  | _ => Exited 0 (lines ["cpu0"]) ""
  end.

(** A host whose total memory line has no colon. *)
Definition host_bad_counter (t : trace) (argv : list string) : proc_outcome :=
  match argv with
  | [_; "info"; "-n"] =>
      Exited 0 (lines ["host : xen1"; "total_memory 8192";
                       "free_memory : 2048"]) ""
  | _ => Exited 0 (lines ["cpu0"]) ""
  end.

(** A decoder that finds one running domain, whatever the text. *)
Definition one_domain (text : string) : result pyval :=
  Ok (PyList [PyDict [("domid", PyInt 3);
                      ("state", PyStr "running");
                      ("maxmem", PyInt 524288);
                      ("mem", PyInt 262144);
                      ("vcpus", PyInt 2)]]).

(** A file system on which every operation succeeds. *)
Definition fs_ok (s : sys) (op : fs_op) : option oserror := None.

(** A file system on which nothing may be written. *)
Definition fs_read_only (s : sys) (op : fs_op) : option oserror :=
  Some PermissionError.

(** A file system on which directories can be made and files cannot be
    written. *)
Definition fs_no_files (s : sys) (op : fs_op) : option oserror :=
  match op with
  | MakeDirs _ => None
  | WriteFile _ _ => Some PermissionError
  end.

Definition fresh : sys := {| files := []; procs := [] |}.

(** [str] on the values that have a short decimal or literal form. *)
Definition plain_str (v : pyval) : string :=
  match v with
  | PyStr s => s
  | PyInt z => PyStr.of_int z
  | PyBool true => "True"
  | PyBool false => "False"
  | _ => "None"
  end.

Definition vif1 : pyval :=
  PyDict [("id", PyStr "0");
          ("address", PyStr "fa:16:3e:4c:2d:11");
          ("network", PyDict [("bridge", PyStr "xenbr0")])].

(** A host on which domains are created, and cannot be paused. *)
Definition host_no_pause (t : trace) (argv : list string) : proc_outcome :=
  match argv with
  | [_; "pause"; _] => Exited 3 "" "libxl: error: unable to pause"
  | _ => Exited 0 "" ""
  end.

(** The directory of an instance and the path of its configuration, as
    [spawn] computes them. *)
Definition instance_dir (instance : Instance) : string :=
  os_path_join "/etc/xen" (name instance).

Definition cfg_path (instance : Instance) : string :=
  os_path_join (instance_dir instance) "config".

(** The state after further file operations and another trace. *)
Definition sys_after (s : sys) (ops : list (fs_op * option oserror))
           (t : trace) : sys :=
  {| files := files s ++ ops; procs := t |}.

(** * Properties *)

Lemma execs_app (t1 t2 : trace) : execs (t1 ++ t2) = execs t1 ++ execs t2.
Proof.
  induction t1 as [|ev t1 IH]; simpl; [reflexivity|].
  destruct ev; simpl; rewrite IH; reflexivity.
Qed.

Lemma execs_at_exec (t : trace) : execs (at_exec t) = execs t.
Proof. unfold at_exec. rewrite execs_app. simpl. apply List.app_nil_r. Qed.

Section ExecuteFacts.

Variable os_run : trace -> list string -> proc_outcome.

(** What [_execute_xl] does, by the outcome of the process. *)
Lemma execute_xl_unfold (cmd : list string) (t : trace) :
  _execute_xl os_run cmd t =
  let argv := xl_path :: cmd in
  let t1 := at_exec t ++ [Exec argv] in
  match os_run (at_exec t) argv with
  | NotStarted e => (Raise (OSError e), t1)
  | Exited rc out err =>
      if rc =? 0 then
        (Ok {| args := argv; returncode := rc;
               stdout := Some out; stderr := Some err |}, t1)
      else (Raise (NovaException (Some err)),
            t1 ++ [Log ERROR "xl command failed: %s"])
  end.
Proof.
  unfold _execute_xl, bind, emit, try_except, subprocess_run, at_exec, raise.
  cbv zeta.
  destruct (os_run _ _) as [rc out err|e]; [|reflexivity].
  destruct (rc =? 0); reflexivity.
Qed.

(** [_execute_xl] starts exactly one process, the [xl] binary with the
    given arguments. *)
Lemma execute_xl_execs (cmd : list string) (t : trace) :
  execs (snd (_execute_xl os_run cmd t)) = execs t ++ [xl_path :: cmd].
Proof.
  rewrite execute_xl_unfold. cbv zeta.
  destruct (os_run _ _) as [rc out err|e]; [destruct (rc =? 0)|]; simpl;
    rewrite !execs_app, ?execs_at_exec; simpl; rewrite ?List.app_nil_r; reflexivity.
Qed.

(** C4 (as amended): [_execute_xl] returns the completed process when it
    exits with status 0, raises [NovaException] with the captured standard
    error as its message when it exits with another status, and lets the
    operating system's error through unchanged when the process cannot be
    started. *)
Theorem execute_xl_outcome (cmd : list string) (t : trace) :
  match os_run (at_exec t) (xl_path :: cmd) with
  | Exited rc out err =>
      if rc =? 0 then
        fst (_execute_xl os_run cmd t)
        = Ok {| args := xl_path :: cmd; returncode := 0;
                stdout := Some out; stderr := Some err |}
      else fst (_execute_xl os_run cmd t) = Raise (NovaException (Some err))
  | NotStarted e => fst (_execute_xl os_run cmd t) = Raise (OSError e)
  end.
Proof.
  rewrite execute_xl_unfold. cbv zeta.
  destruct (os_run _ _) as [rc out err|e]; [|reflexivity].
  destruct (Z.eqb_spec rc 0) as [->|_]; reflexivity.
Qed.

End ExecuteFacts.

(** C4, refuted as stated: when the binary cannot be started the caller
    gets the operating system's [FileNotFoundError], not the driver's
    execution error; and when the process exits with a status other than 0
    the exception raised has the standard error as its message but is the
    same for status 1 and status 2, so it carries no exit code. *)
Lemma execute_xl_counterexample :
  fst (_execute_xl broken_host ["list"] []) = Raise (OSError FileNotFoundError)
  /\ fst (_execute_xl failing_host ["list"] [])
     = Raise (NovaException (Some "libxl: error: domain not found"))
  /\ fst (_execute_xl failing_host_2 ["list"] [])
     = fst (_execute_xl failing_host ["list"] []).
Proof. repeat split. Qed.

Section LifecycleFacts.

Variable os_run : trace -> list string -> proc_outcome.

Lemma bind_ret_tt {A} (m : M A) (t : trace) :
  snd ((m ;; ret tt) t) = snd (m t)
  /\ fst ((m ;; ret tt) t)
     = match fst (m t) with Ok _ => Ok tt | Raise e => Raise e end.
Proof. unfold bind, ret. destruct (m t) as [[a|e] t']; split; reflexivity. Qed.

(** C10: [reboot] starts [xl reset] for every reboot type other than the
    exact string SOFT, and starts [xl reboot] for SOFT only; it starts no
    other process. *)
Theorem reboot_command (instance : Instance) (reboot_type : string) (t : trace) :
  (reboot_type <> "SOFT" ->
   execs (snd (reboot os_run instance reboot_type t))
   = execs t ++ [[xl_path; "reset"; name instance]])
  /\ (reboot_type = "SOFT" ->
      execs (snd (reboot os_run instance reboot_type t))
      = execs t ++ [[xl_path; "reboot"; name instance]]).
Proof.
  unfold reboot.
  destruct (String.eqb_spec reboot_type "SOFT") as [E|N]; split; intro H;
    try contradiction;
    rewrite (proj1 (bind_ret_tt _ _)); apply execute_xl_execs.
Qed.

(** The first step of [destroy]: whatever the [xl destroy] process does,
    the step completes, and it has started that process. *)
Lemma destroy_domain_step (instance : Instance) (t : trace) :
  exists t1,
    try_except
      (_execute_xl os_run ["destroy"; name instance] ;; ret tt)
      (fun e => Some (emit (Log WARNING "Instance destroy failed: %s"))) t
    = (Ok tt, t1)
    /\ execs t1 = execs t ++ [[xl_path; "destroy"; name instance]].
Proof.
  unfold try_except, bind, ret. rewrite execute_xl_unfold. cbv zeta.
  destruct (os_run _ _) as [rc out err|e]; [destruct (rc =? 0)|];
    unfold emit; eexists; (split; [reflexivity|]);
    rewrite !execs_app, ?execs_at_exec; simpl;
    rewrite ?List.app_nil_r; reflexivity.
Qed.

(** [destroy] starts [xl destroy], and then [rm -rf] on the directory of
    the instance when the disks are to be destroyed, whatever the outcome
    of either process. *)
Lemma destroy_execs (instance : Instance) (destroy_disks : bool) (t : trace) :
  execs (snd (destroy os_run instance destroy_disks t))
  = execs t ++ [xl_path; "destroy"; name instance]
               :: (if destroy_disks then [rm_argv instance] else []).
Proof.
  unfold destroy.
  destruct (destroy_domain_step instance t) as (t1 & E1 & X1).
  unfold bind at 1. rewrite E1.
  destruct destroy_disks; [|exact X1].
  unfold try_except, bind, ret, subprocess_run, emit. cbv zeta.
  fold (rm_argv instance).
  destruct (os_run t1 (rm_argv instance)) as [rc out err|e];
    [destruct (rc =? 0)|]; simpl;
    rewrite !execs_app, X1; simpl; rewrite <- ?app_assoc; reflexivity.
Qed.

(** C3 (as amended): provided the [rm] process can be started when the
    disks are to be destroyed, [destroy] returns normally whatever the
    [xl destroy] process does and whatever status [rm] exits with; and the
    removal of the directory is attempted after [xl destroy] whenever the
    disks are to be destroyed. *)
Theorem destroy_best_effort (instance : Instance) (destroy_disks : bool)
                            (t : trace) :
  (destroy_disks = true ->
   forall t', exists rc out err,
     os_run t' (rm_argv instance) = Exited rc out err) ->
  fst (destroy os_run instance destroy_disks t) = Ok tt
  /\ execs (snd (destroy os_run instance destroy_disks t))
     = execs t ++ [xl_path; "destroy"; name instance]
                  :: (if destroy_disks then [rm_argv instance] else []).
Proof.
  intro Hrm. split; [|apply destroy_execs].
  unfold destroy.
  destruct (destroy_domain_step instance t) as (t1 & E1 & _).
  unfold bind at 1. rewrite E1.
  destruct destroy_disks; [|reflexivity].
  destruct (Hrm eq_refl t1) as (rc & out & err & E).
  unfold try_except, bind, ret, subprocess_run, emit. cbv zeta.
  fold (rm_argv instance). rewrite E.
  destruct (rc =? 0); reflexivity.
Qed.

(** X6: when the [rm] process cannot be started, [destroy] raises the
    operating system's error. *)
Lemma destroy_rm_not_started (instance : Instance) (t : trace) (e : oserror) :
  (forall t', os_run t' (rm_argv instance) = NotStarted e) ->
  fst (destroy os_run instance true t) = Raise (OSError e).
Proof.
  intro Hrm. unfold destroy.
  destruct (destroy_domain_step instance t) as (t1 & E1 & _).
  unfold bind at 1. rewrite E1.
  unfold try_except, bind, ret, subprocess_run. cbv zeta.
  fold (rm_argv instance). rewrite Hrm. reflexivity.
Qed.

End LifecycleFacts.

(** C3, on a host where [xl destroy] exits with status 1 and [rm] exits
    with status 1: [destroy] returns normally and has attempted both. *)
Lemma destroy_best_effort_witness :
  fst (destroy failing_host vm1 true []) = Ok tt
  /\ execs (snd (destroy failing_host vm1 true []))
     = [[xl_path; "destroy"; "vm1"]; ["rm"; "-rf"; "/etc/xen/vm1"]].
Proof.
  apply (destroy_best_effort failing_host vm1 true []).
  intros _ t'. exists 1, "", "libxl: error: domain not found". reflexivity.
Defined.

(** C3, refuted as stated: on a host where [xl destroy] exits with status 1
    and the [rm] binary cannot be started, [destroy] raises
    [FileNotFoundError] instead of returning. *)
Lemma destroy_counterexample :
  fst (_execute_xl host_without_rm ["destroy"; name vm1] [])
  = Raise (NovaException (Some "libxl: error: domain not found"))
  /\ fst (destroy host_without_rm vm1 true [])
     = Raise (OSError FileNotFoundError).
Proof. split; reflexivity. Qed.

Section QueryFacts.

Variable os_run : trace -> list string -> proc_outcome.
Variable json_loads : string -> result pyval.

(** [get_info] returns what its body returns, and turns every exception
    of the body into [InstanceNotFound]. *)
Lemma get_info_unfold (instance : Instance) (t : trace) :
  fst (get_info os_run json_loads instance t)
  = match fst (get_info_body os_run json_loads instance t) with
    | Ok info => Ok info
    | Raise _ => Raise (InstanceNotFound (uuid instance))
    end.
Proof.
  unfold get_info, try_except.
  destruct (get_info_body os_run json_loads instance t) as [[info|e] t']; reflexivity.
Qed.

(** What the body of [get_info] does once the listing has been decoded. *)
Lemma get_info_body_decoded (instance : Instance) (t : trace)
      (out err : string) :
  os_run (at_exec t) [xl_path; "list"; "-l"; name instance]
  = Exited 0 out err ->
  fst (get_info_body os_run json_loads instance t)
  = match json_loads out with
    | Raise e => Raise e
    | Ok data =>
        if negb (truthy data) then Raise (InstanceNotFound (uuid instance))
        else
          domain_info <-! getitem_int data 0 ;;
          state <-! getitem_str domain_info "state" ;;
          st <-! POWER_STATE_MAP_get_val state NOSTATE ;;
          maxmem <-! getitem_str domain_info "maxmem" ;;
          max_mem <-! mul_Ki maxmem ;;
          mem0 <-! getitem_str domain_info "mem" ;;
          mem <-! mul_Ki mem0 ;;
          num_cpu <-! getitem_str domain_info "vcpus" ;;
          Ok {| state := st; max_mem := max_mem; mem := mem;
                num_cpu := num_cpu; cpu_time := 0 |}
    end.
Proof.
  intro E. unfold get_info_body. unfold bind at 1.
  rewrite execute_xl_unfold. cbv zeta. rewrite E. simpl.
  unfold bind, lift, raise. simpl.
  destruct (json_loads out) as [data|e]; [|reflexivity].
  destruct (truthy data); simpl; [|reflexivity].
  destruct (getitem_int data 0) as [domain_info|e]; [|reflexivity]. simpl.
  destruct (getitem_str domain_info "state") as [state|e]; reflexivity.
Qed.

(** C2: [get_info] either returns or raises [InstanceNotFound], never
    another exception; it raises [InstanceNotFound] when the [xl] process
    cannot be started, when it exits with a status other than 0, when its
    output cannot be decoded, and when the decoded listing is the empty
    array. *)
Theorem get_info_not_found (instance : Instance) (t : trace) :
  let r := fst (get_info os_run json_loads instance t) in
  let argv := [xl_path; "list"; "-l"; name instance] in
  let not_found := Raise (InstanceNotFound (uuid instance)) in
  ((exists info, r = Ok info) \/ r = not_found)
  /\ (forall e, os_run (at_exec t) argv = NotStarted e -> r = not_found)
  /\ (forall rc out err,
        os_run (at_exec t) argv = Exited rc out err -> rc <> 0 ->
        r = not_found)
  /\ (forall out err e,
        os_run (at_exec t) argv = Exited 0 out err ->
        json_loads out = Raise e -> r = not_found)
  /\ (forall out err,
        os_run (at_exec t) argv = Exited 0 out err ->
        json_loads out = Ok (PyList []) -> r = not_found).
Proof.
  cbv zeta. rewrite get_info_unfold. repeat split.
  - destruct (fst (get_info_body os_run json_loads instance t)) as [info|e];
      [left; exists info|right]; reflexivity.
  - intros e E. unfold get_info_body. unfold bind at 1.
    rewrite execute_xl_unfold. cbv zeta. rewrite E. reflexivity.
  - intros rc out err E Hrc. unfold get_info_body. unfold bind at 1.
    rewrite execute_xl_unfold. cbv zeta. rewrite E.
    destruct (Z.eqb_spec rc 0); [contradiction|reflexivity].
  - intros out err e E J. rewrite (get_info_body_decoded _ _ _ _ E), J.
    reflexivity.
  - intros out err E J. rewrite (get_info_body_decoded _ _ _ _ E), J.
    reflexivity.
Qed.

(** X1: on a listing whose first entry has a string state and integer
    sizes, [get_info] returns the canonical state of the token and the sizes
    scaled by [units.Ki]. *)
Lemma get_info_well_formed (instance : Instance) (t : trace)
      (out err token : string) (maxmem mem vcpus : Z)
      (items : list (string * pyval)) (others : list pyval) :
  os_run (at_exec t) [xl_path; "list"; "-l"; name instance]
  = Exited 0 out err ->
  json_loads out = Ok (PyList (PyDict items :: others)) ->
  assoc "state" items = Some (PyStr token) ->
  assoc "maxmem" items = Some (PyInt maxmem) ->
  assoc "mem" items = Some (PyInt mem) ->
  assoc "vcpus" items = Some (PyInt vcpus) ->
  fst (get_info os_run json_loads instance t)
  = Ok {| state := POWER_STATE_MAP_get token NOSTATE;
          max_mem := PyInt (maxmem * 1024);
          mem := PyInt (mem * 1024);
          num_cpu := PyInt vcpus;
          cpu_time := 0 |}.
Proof.
  intros E J Hs Hmax Hmem Hv.
  rewrite get_info_unfold, (get_info_body_decoded _ _ _ _ E), J.
  cbn [truthy negb getitem_int]. unfold seq_index. cbn -[assoc].
  unfold getitem_str. rewrite Hs, Hmax, Hmem, Hv. reflexivity.
Qed.

End QueryFacts.


Section ResourceFacts.

Variable os_run : trace -> list string -> proc_outcome.

(** [get_available_resource] returns a snapshot exactly when both [xl]
    processes exit with status 0 and every counter line of the memory
    information parses; the snapshot is then built from the counters and
    the number of lines of the CPU information. *)
Lemma get_available_resource_returns (nodename : string) (t : trace)
      (r : HostResources) :
  fst (get_available_resource os_run nodename t) = Ok r <->
  exists memory_text err1 cpu_text err2 total free,
    os_run (at_exec t) info_argv = Exited 0 memory_text err1
    /\ memory_info_loop (PyStr.splitlines memory_text) 0 0 = Ok (total, free)
    /\ os_run (at_cpu_exec t) cpu_argv = Exited 0 cpu_text err2
    /\ r = snapshot nodename total free
             (Z.of_nat (List.length (PyStr.splitlines cpu_text))).
Proof.
  unfold get_available_resource, at_cpu_exec.
  unfold bind at 1. rewrite execute_xl_unfold. cbv zeta.
  fold info_argv.
  destruct (os_run (at_exec t) info_argv) as [rc out err|e] eqn:E1.
  2:{ split; [discriminate|]. intros (? & ? & ? & ? & ? & ? & H & _).
      discriminate. }
  destruct (Z.eqb_spec rc 0) as [->|Hrc].
  2:{ split; [discriminate|]. intros (? & ? & ? & ? & ? & ? & H & _).
      injection H as H. contradiction. }
  unfold bind at 1. unfold lift at 1. cbn [captured stdout].
  unfold bind at 1. unfold lift at 1.
  destruct (memory_info_loop (PyStr.splitlines out) 0 0) as [[total free]|e]
    eqn:E2.
  2:{ split; [discriminate|].
      intros (? & ? & ? & ? & ? & ? & H & L & _).
      injection H as <- _. rewrite E2 in L. discriminate. }
  unfold bind at 1. rewrite execute_xl_unfold. cbv zeta.
  fold cpu_argv.
  destruct (os_run _ cpu_argv) as [rc2 out2 err2|e] eqn:E3.
  2:{ split; [discriminate|].
      intros (? & ? & ? & ? & ? & ? & _ & _ & H & _). discriminate. }
  destruct (Z.eqb_spec rc2 0) as [->|Hrc2].
  2:{ split; [discriminate|].
      intros (? & ? & ? & ? & ? & ? & _ & _ & H & _).
      injection H as H. contradiction. }
  unfold bind, lift, ret. cbn [captured stdout fst].
  split.
  - intro H. injection H as <-.
    exists out, err, out2, err2, total, free. repeat split. exact E2.
  - intros (m & e1 & c & e2 & tot & fr & H1 & L & H3 & ->).
    injection H1 as <- _. injection H3 as <- _.
    rewrite E2 in L. injection L as <- <-. reflexivity.
Qed.

(** A line that names neither counter leaves both counters as they are. *)
Lemma memory_info_loop_unmatched (lines : list string) (total free : Z) :
  Forall (fun line => PyStr.contains "total_memory" line = false
                      /\ PyStr.contains "free_memory" line = false) lines ->
  memory_info_loop lines total free = Ok (total, free).
Proof.
  induction 1 as [|line rest [Ht Hf] _ IH]; [reflexivity|].
  cbn [memory_info_loop]. rewrite Ht, Hf. exact IH.
Qed.

(** C6: when both queries succeed, [get_available_resource] reports the
    total memory counter divided by 1024, the difference of the total and
    free counters divided by 1024, and the number of lines of the CPU
    information; on the lines [total_memory : 8192] and
    [free_memory : 2048] with four lines of CPU information these are 8, 6
    and 4. *)
Theorem get_available_resource_figures (nodename : string) (t : trace)
        (memory_text err1 cpu_text err2 : string) (total free : Z) :
  os_run (at_exec t) info_argv = Exited 0 memory_text err1 ->
  os_run (at_cpu_exec t) cpu_argv = Exited 0 cpu_text err2 ->
  memory_info_loop (PyStr.splitlines memory_text) 0 0 = Ok (total, free) ->
  exists r,
    fst (get_available_resource os_run nodename t) = Ok r
    /\ memory_mb r = total / 1024
    /\ memory_mb_used r = (total - free) / 1024
    /\ vcpus r = Z.of_nat (List.length (PyStr.splitlines cpu_text))
    /\ (PyStr.splitlines memory_text
        = ["total_memory : 8192"; "free_memory : 2048"] ->
        List.length (PyStr.splitlines cpu_text) = 4%nat ->
        memory_mb r = 8 /\ memory_mb_used r = 6 /\ vcpus r = 4).
Proof.
  intros E1 E2 L.
  eexists. split.
  - apply get_available_resource_returns.
    exists memory_text, err1, cpu_text, err2, total, free. repeat split; eassumption.
  - cbn [snapshot memory_mb memory_mb_used vcpus].
    split; [reflexivity|]. split; [reflexivity|]. split; [reflexivity|].
    intros Hm Hc. rewrite Hm in L. injection L as <- <-.
    rewrite Hc. repeat split.
Qed.

(** C8: in every snapshot that [get_available_resource] returns, the used
    CPU count and the three disk figures are 0. *)
Theorem get_available_resource_constants (nodename : string) (t : trace)
        (r : HostResources) :
  fst (get_available_resource os_run nodename t) = Ok r ->
  vcpus_used r = 0 /\ local_gb r = 0 /\ local_gb_used r = 0
  /\ disk_available_least r = 0.
Proof.
  intro H. apply get_available_resource_returns in H.
  destruct H as (? & ? & ? & ? & ? & ? & _ & _ & _ & ->).
  repeat split.
Qed.

(** C9: when both queries succeed and no line of the memory information
    names [total_memory] or [free_memory], [get_available_resource]
    returns, with both memory figures 0. *)
Theorem get_available_resource_defaults (nodename : string) (t : trace)
        (memory_text err1 cpu_text err2 : string) :
  os_run (at_exec t) info_argv = Exited 0 memory_text err1 ->
  os_run (at_cpu_exec t) cpu_argv = Exited 0 cpu_text err2 ->
  Forall (fun line => PyStr.contains "total_memory" line = false
                      /\ PyStr.contains "free_memory" line = false)
         (PyStr.splitlines memory_text) ->
  exists r,
    fst (get_available_resource os_run nodename t) = Ok r
    /\ memory_mb r = 0 /\ memory_mb_used r = 0.
Proof.
  intros E1 E2 Hl.
  eexists. split.
  - apply get_available_resource_returns.
    exists memory_text, err1, cpu_text, err2, 0, 0. repeat split; try eassumption.
    apply memory_info_loop_unmatched, Hl.
  - split; reflexivity.
Qed.

End ResourceFacts.

(** C6, on a host that reports [total_memory : 8192], [free_memory : 2048]
    and four lines of CPU information. *)
Lemma get_available_resource_figures_witness :
  exists r,
    fst (get_available_resource healthy_host "node1" []) = Ok r
    /\ memory_mb r = 8 /\ memory_mb_used r = 6 /\ vcpus r = 4.
Proof.
  destruct (get_available_resource_figures healthy_host "node1" []
              (lines ["total_memory : 8192"; "free_memory : 2048"]) ""
              (lines ["cpu0"; "cpu1"; "cpu2"; "cpu3"]) "" 8192 2048
              eq_refl eq_refl eq_refl)
    as (r & E & _ & _ & _ & H).
  exists r. split; [exact E|]. apply H; reflexivity.
Defined.

(** C8, on the same host. *)
Lemma get_available_resource_constants_witness :
  exists r,
    fst (get_available_resource healthy_host "node1" []) = Ok r
    /\ vcpus_used r = 0 /\ local_gb r = 0 /\ local_gb_used r = 0
    /\ disk_available_least r = 0.
Proof.
  eexists. split; [reflexivity|].
  apply (get_available_resource_constants healthy_host "node1" []).
  reflexivity.
Defined.

(** C9, on a host whose memory information names neither counter. *)
Lemma get_available_resource_defaults_witness :
  exists r,
    fst (get_available_resource silent_host "node1" []) = Ok r
    /\ memory_mb r = 0 /\ memory_mb_used r = 0.
Proof.
  apply (get_available_resource_defaults silent_host "node1" []
           (lines ["host : xen1"; "release : 5.15.0"; "xen_major : 4"]) ""
           (lines ["cpu0"; "cpu1"]) "");
    [reflexivity|reflexivity|].
  vm_compute PyStr.splitlines.
  repeat (apply Forall_cons; [split; vm_compute; reflexivity|]).
  apply Forall_nil.
Defined.

Section ListingFacts.

Variable os_run : trace -> list string -> proc_outcome.

Lemma cons_first_not_nil (c : ascii) (pieces : list string) :
  PyStr.cons_first c pieces <> [].
Proof. destruct pieces; discriminate. Qed.

(** [split] finds no token exactly in the lines that are blank. *)
Lemma split_nil_iff_blank (s : string) :
  PyStr.split s = [] <-> is_blank s = true.
Proof.
  induction s as [|c s IH]; [split; reflexivity|].
  cbn [PyStr.split is_blank].
  destruct (PyStr.is_space c); [exact IH|].
  split; [|discriminate].
  destruct s as [|c' s']; [discriminate|].
  destruct (PyStr.is_space c'); [discriminate|].
  intro H. exfalso. exact (cons_first_not_nil _ _ H).
Qed.

(** On lines that each have a token, the loop of [list_instances] appends
    the first token of every line, in order. *)
Lemma list_instances_loop_tokens (rest acc : list string) :
  Forall (fun line => is_blank line = false) rest ->
  list_instances_loop rest acc = Ok (acc ++ List.map first_token rest).
Proof.
  intro H. revert acc.
  induction H as [|line rest Hb _ IH]; intro acc.
  - simpl. rewrite List.app_nil_r. reflexivity.
  - cbn [list_instances_loop List.map]. unfold first_token at 1.
    destruct (PyStr.split line) as [|tok toks] eqn:E.
    + apply split_nil_iff_blank in E. congruence.
    + unfold list_getitem, seq_index. cbn -[list_instances_loop].
      rewrite IH, <- app_assoc. reflexivity.
Qed.

(** The loop of [list_instances] raises [IndexError] at a blank line. *)
Lemma list_instances_loop_blank (before after acc : list string)
      (line : string) :
  Forall (fun l => is_blank l = false) before ->
  is_blank line = true ->
  list_instances_loop (before ++ line :: after) acc = Raise IndexError.
Proof.
  intros H Hb. revert acc.
  induction H as [|l before Hl _ IH]; intro acc.
  - apply split_nil_iff_blank in Hb. simpl. rewrite Hb. reflexivity.
  - cbn [app list_instances_loop].
    destruct (PyStr.split l) as [|tok toks] eqn:E.
    + apply split_nil_iff_blank in E. congruence.
    + unfold list_getitem, seq_index. cbn -[list_instances_loop]. apply IH.
Qed.

(** When the [xl list] process exits with status 0, [list_instances] is
    its loop over the lines of the output after the first. *)
Lemma list_instances_unfold (t : trace) (text err : string) :
  os_run (at_exec t) [xl_path; "list"] = Exited 0 text err ->
  fst (list_instances os_run t)
  = list_instances_loop (List.tl (PyStr.splitlines text)) [].
Proof.
  intro E. unfold list_instances. unfold bind at 1.
  rewrite execute_xl_unfold. cbv zeta. rewrite E. reflexivity.
Qed.

(** C7 (as amended): when the listing command succeeds and every line
    after the first has a token, [list_instances] drops the first line and
    returns the first whitespace-delimited token of each remaining line;
    an output without any line gives the empty list. *)
Theorem list_instances_tokens (t : trace) (text err : string) :
  os_run (at_exec t) [xl_path; "list"] = Exited 0 text err ->
  Forall (fun line => is_blank line = false)
         (List.tl (PyStr.splitlines text)) ->
  fst (list_instances os_run t)
  = Ok (List.map first_token (List.tl (PyStr.splitlines text)))
  /\ (text = "" -> fst (list_instances os_run t) = Ok []).
Proof.
  intros E H. rewrite (list_instances_unfold _ _ _ E).
  split.
  - apply (list_instances_loop_tokens _ [] H).
  - intros ->. reflexivity.
Qed.

End ListingFacts.

(** C7, on the header line and the lines of two domains. *)
Lemma list_instances_tokens_witness :
  fst (list_instances healthy_host []) = Ok ["vm1"; "vm2"].
Proof.
  apply (list_instances_tokens healthy_host []
           (lines ["NAME STATE MEM VCPUS";
                   "vm1 running 512 2";
                   "vm2 paused 256 1"]) "" eq_refl).
  vm_compute List.tl.
  repeat (apply Forall_cons; [vm_compute; reflexivity|]).
  apply Forall_nil.
Defined.

(** C7, refuted as stated: an output without the header line gives the
    empty list and no error; and a line of blanks between two domains is
    not skipped, it ends the call with [IndexError]. *)
Lemma list_instances_counterexample :
  fst (list_instances host_empty_listing []) = Ok []
  /\ fst (list_instances host_blank_line []) = Raise IndexError.
Proof. split; reflexivity. Qed.

(** ** The decimal form of integers *)

Lemma digits_of_uint_acc (d : Decimal.uint) (p : positive) :
  PyInt.digits (NilEmpty.string_of_uint d) (Z.pos p) false
  = Some (Z.pos (Pos.of_uint_acc d p)).
Proof.
  revert p.
  induction d as [|d IH|d IH|d IH|d IH|d IH|d IH|d IH|d IH|d IH|d IH];
    intro p; [reflexivity|..];
    cbn [NilEmpty.string_of_uint PyInt.digits Pos.of_uint_acc];
    match goal with
    | |- context [PyInt.digit ?c] =>
        let v := eval vm_compute in (PyInt.digit c) in
        change (PyInt.digit c) with v
    end;
    cbv iota;
    match goal with
    | |- PyInt.digits _ ?acc false = Some (Z.pos (Pos.of_uint_acc _ ?q)) =>
        replace acc with (Z.pos q) by lia
    end;
    apply IH.
Qed.

Lemma digits_of_uint (d : Decimal.uint) :
  PyInt.digits (NilEmpty.string_of_uint d) 0 false = Some (Z.of_uint d).
Proof.
  induction d as [|d IH|d IH|d IH|d IH|d IH|d IH|d IH|d IH|d IH|d IH];
    [reflexivity|exact IH|..];
    cbn [NilEmpty.string_of_uint PyInt.digits];
    match goal with
    | |- context [PyInt.digit ?c] =>
        let v := eval vm_compute in (PyInt.digit c) in
        change (PyInt.digit c) with v
    end;
    cbv iota; apply digits_of_uint_acc.
Qed.

Lemma unsigned_of_uint (d : Decimal.uint) :
  PyInt.unsigned (NilZero.string_of_uint d) = Some (Z.of_uint d).
Proof.
  destruct d; [reflexivity|exact (digits_of_uint d)|..];
    exact (digits_of_uint_acc d _).
Qed.

(** A digit or a minus sign is neither whitespace, nor a line feed, nor a
    plus sign. *)
Lemma digit_or_minus_plain (c : ascii) :
  digit_or_minus c = true ->
  PyStr.is_space c = false /\ Ascii.eqb c PyStr.LF = false
  /\ Ascii.eqb c "+" = false.
Proof.
  destruct c as [[] [] [] [] [] [] [] []]; vm_compute; intro H;
    try discriminate H; repeat split.
Qed.

Lemma uint_chars (d : Decimal.uint) :
  all_chars digit_or_minus (NilEmpty.string_of_uint d) = true.
Proof. induction d; [reflexivity|..]; exact IHd. Qed.

Lemma of_int_chars (z : Z) : all_chars digit_or_minus (PyStr.of_int z) = true.
Proof.
  unfold PyStr.of_int.
  destruct (Z.to_int z) as [d|d]; cbn [NilZero.string_of_int all_chars];
    [|change (digit_or_minus "-") with true; cbv iota beta; cbn [andb]];
    (destruct d; [reflexivity|..]; apply uint_chars).
Qed.

Lemma rstrip_plain (s : string) :
  all_chars digit_or_minus s = true -> PyStr.rstrip s = s.
Proof.
  induction s as [|c s IH]; [reflexivity|].
  cbn [all_chars]. intro H. apply andb_prop in H. destruct H as [Hc Hs].
  cbn [PyStr.rstrip]. rewrite (IH Hs).
  destruct s; [|reflexivity].
  rewrite (proj1 (digit_or_minus_plain c Hc)). reflexivity.
Qed.

Lemma strip_plain (s : string) :
  all_chars digit_or_minus s = true -> PyStr.strip s = s.
Proof.
  intro H. unfold PyStr.strip.
  assert (L : PyStr.lstrip s = s).
  { destruct s as [|c s]; [reflexivity|]. cbn [all_chars] in H.
    apply andb_prop in H. destruct H as [Hc _]. cbn [PyStr.lstrip].
    rewrite (proj1 (digit_or_minus_plain c Hc)). reflexivity. }
  rewrite L. apply rstrip_plain, H.
Qed.

Lemma has_char_plain (s : string) :
  all_chars digit_or_minus s = true -> has_char PyStr.LF s = false.
Proof.
  induction s as [|c s IH]; [reflexivity|].
  cbn [all_chars has_char]. intro H. apply andb_prop in H.
  destruct H as [Hc Hs].
  rewrite (proj1 (proj2 (digit_or_minus_plain c Hc))), (IH Hs). reflexivity.
Qed.

(** [int(str(z))] is [z]. *)
(** [int] skips nothing around decimal digits and a sign. *)
Lemma trimmed_plain (s : string) :
  all_chars digit_or_minus s = true -> PyInt.trimmed s = s.
Proof.
  intro H. unfold PyInt.trimmed.
  assert (P : forall c, digit_or_minus c = true -> PyInt.skipped s c = false).
  { intros c Hc. unfold PyInt.skipped.
    destruct (PyInt.is_ascii s);
      [|exact (proj1 (digit_or_minus_plain c Hc))].
    destruct c as [[] [] [] [] [] [] [] []]; try reflexivity;
      vm_compute in Hc; discriminate Hc. }
  generalize dependent (PyInt.skipped s). intros skip P.
  assert (L : PyInt.lstrip_by skip s = s).
  { destruct s as [|c s]; [reflexivity|]. cbn [all_chars] in H.
    apply andb_prop in H. destruct H as [Hc _]. cbn [PyInt.lstrip_by].
    rewrite (P c Hc). reflexivity. }
  rewrite L. clear L.
  induction s as [|c s IH]; [reflexivity|].
  cbn [all_chars] in H. apply andb_prop in H. destruct H as [Hc Hs].
  cbn [PyInt.rstrip_by]. rewrite (IH Hs).
  destruct s; [|reflexivity]. rewrite (P c Hc). reflexivity.
Qed.

Lemma parse_of_int (z : Z) : PyInt.parse (PyStr.of_int z) = Ok z.
Proof.
  unfold PyInt.parse. rewrite (trimmed_plain _ (of_int_chars z)).
  pose proof (DecimalZ.of_to z) as R. unfold PyStr.of_int.
  destruct (Z.to_int z) as [d|d]; cbn [NilZero.string_of_int Z.of_int] in *.
  - pose proof (unsigned_of_uint d) as U.
    assert (C : all_chars digit_or_minus (NilZero.string_of_uint d) = true).
    { destruct d; [reflexivity|..]; apply uint_chars. }
    destruct (NilZero.string_of_uint d) as [|c s] eqn:E; [discriminate U|].
    cbn [all_chars] in C. apply andb_prop in C. destruct C as [Hc _].
    destruct (digit_or_minus_plain c Hc) as (_ & _ & Hplus).
    assert (Hminus : Ascii.eqb c "-" = false).
    { destruct d; cbn in E; injection E as <- _; reflexivity. }
    rewrite Hminus, Hplus, U, R. reflexivity.
  - change (Ascii.eqb "-" "-") with true. cbv iota.
    rewrite unsigned_of_uint. cbn [option_map]. rewrite R. reflexivity.
Qed.

(** ** The configuration and its reader *)

Lemma has_char_append (c : ascii) (a b : string) :
  has_char c (a ++ b)%string = has_char c a || has_char c b.
Proof.
  induction a as [|x a IH]; [reflexivity|].
  cbn [String.append has_char]. rewrite IH. apply orb_assoc.
Qed.

(** A piece without the separator, followed by the separator, is the first
    piece of the split. *)
Lemma split_on_line (sep : ascii) (a b : string) :
  has_char sep a = false ->
  PyStr.split_on sep (a ++ String sep b)%string = a :: PyStr.split_on sep b.
Proof.
  induction a as [|x a IH]; cbn [String.append PyStr.split_on has_char].
  - intros _. rewrite Ascii.eqb_refl. reflexivity.
  - intro H. apply orb_false_elim in H. destruct H as [Hx Ha].
    rewrite Hx, (IH Ha). reflexivity.
Qed.

(** The first line of a joined text, when it holds no line feed and other
    lines follow. *)
Lemma split_on_join (l l' : string) (ls : list string) :
  has_char PyStr.LF l = false ->
  PyStr.split_on PyStr.LF (PyStr.join NL (l :: l' :: ls))
  = l :: PyStr.split_on PyStr.LF (PyStr.join NL (l' :: ls)).
Proof.
  intro H. unfold PyStr.join.
  change (String.concat NL (l :: l' :: ls))
    with (l ++ String PyStr.LF (String.concat NL (l' :: ls)))%string.
  apply split_on_line, H.
Qed.


(** The first three lines of a configuration, when the name of the
    instance holds no line feed. *)
Lemma get_xl_config_lines (instance : Instance) :
  has_char PyStr.LF (name instance) = false ->
  exists rest,
    PyStr.split_on PyStr.LF (_get_xl_config instance)
    = ("name = '" ++ name instance ++ "'")%string
      :: ("memory = " ++ PyStr.of_int (flavor_memory_mb (flavor instance)))%string
      :: ("vcpus = " ++ PyStr.of_int (flavor_vcpus (flavor instance)))%string
      :: rest.
Proof.
  intro Hn. unfold _get_xl_config. cbv zeta.
  rewrite split_on_join.
  2:{ rewrite !has_char_append, Hn. reflexivity. }
  rewrite split_on_join.
  2:{ rewrite has_char_append, (has_char_plain _ (of_int_chars _)).
      reflexivity. }
  rewrite split_on_join.
  2:{ rewrite has_char_append, (has_char_plain _ (of_int_chars _)).
      reflexivity. }
  eexists. reflexivity.
Qed.

(** The two instances [twin_a] and [twin_b] have the same configuration. *)
Lemma twin_configs : _get_xl_config twin_a = _get_xl_config twin_b.
Proof. vm_compute. reflexivity. Qed.

(** [XlConfig.lookup] is the policy [first_wins]. *)
Lemma lookup_first_wins (key : string) (lines : list string) :
  XlConfig.lookup key lines = first_wins (assignments key lines).
Proof.
  induction lines as [|line rest IH]; [reflexivity|].
  cbn [XlConfig.lookup assignments].
  destruct (XlConfig.strip_prefix (key ++ " = ")%string line);
    [reflexivity|exact IH].
Qed.

(** [XlConfig.read] is [read_with] under the policy [first_wins]. *)
Lemma read_first_wins (artifact : string) :
  XlConfig.read artifact = read_with first_wins artifact.
Proof.
  unfold XlConfig.read, read_with. cbv zeta.
  rewrite !lookup_first_wins. reflexivity.
Qed.



(** No reader of configurations gives back the fields of both [twin_a]
    and [twin_b]. *)
Lemma no_reader_round_trips (reader : string -> option (string * Z * Z)) :
  reader (_get_xl_config twin_a) = Some (shape twin_a) ->
  reader (_get_xl_config twin_b) <> Some (shape twin_b).
Proof.
  intros Ha Hb. rewrite twin_configs, Hb in Ha. discriminate Ha.
Qed.



(** ** The counter lines of the memory information *)

Lemma prefix_append (p s : string) : String.prefix p (p ++ s)%string = true.
Proof.
  induction p as [|c p IH]; [destruct s; reflexivity|].
  cbn [String.append String.prefix].
  destruct (ascii_dec c c) as [_|N]; [exact IH|contradiction].
Qed.

Lemma contains_append (p s : string) :
  PyStr.contains p (p ++ s)%string = true.
Proof.
  destruct (p ++ s)%string eqn:E; cbn [PyStr.contains];
    rewrite <- E, prefix_append; reflexivity.
Qed.

(** A key that starts with a letter does not occur among digits. *)
Lemma contains_plain (c0 : ascii) (key s : string) :
  digit_or_minus c0 = false ->
  all_chars digit_or_minus s = true ->
  PyStr.contains (String c0 key) s = false.
Proof.
  intros H0. induction s as [|c s IH]; [reflexivity|].
  cbn [all_chars]. intro H. apply andb_prop in H. destruct H as [Hc Hs].
  cbn [PyStr.contains String.prefix].
  destruct (ascii_dec c0 c) as [->|_]; [congruence|].
  exact (IH Hs).
Qed.

Lemma split_on_none (sep : ascii) (s : string) :
  has_char sep s = false -> PyStr.split_on sep s = [s].
Proof.
  induction s as [|c s IH]; [reflexivity|].
  cbn [has_char PyStr.split_on]. intro H. apply orb_false_elim in H.
  destruct H as [Hc Hs]. rewrite Hc, (IH Hs). reflexivity.
Qed.

Lemma has_colon_plain (s : string) :
  all_chars digit_or_minus s = true -> has_char ":" s = false.
Proof.
  induction s as [|c s IH]; [reflexivity|].
  cbn [all_chars has_char]. intro H. apply andb_prop in H.
  destruct H as [Hc Hs]. rewrite (IH Hs), orb_false_r.
  destruct c as [[] [] [] [] [] [] [] []]; try reflexivity;
    vm_compute in Hc; discriminate Hc.
Qed.

(** The field that the loop takes from a line [key : value], the value in
    decimal, and the integer it reads from the field. *)
Lemma counter_field (key : string) (z : Z) :
  has_char ":" key = false ->
  list_getitem (PyStr.split_on ":" (key ++ ": " ++ PyStr.of_int z)%string) 1
  = Ok (String " " (PyStr.of_int z))
  /\ PyInt.parse (PyStr.strip (String " " (PyStr.of_int z))) = Ok z.
Proof.
  intro Hk. split.
  - change (key ++ ": " ++ PyStr.of_int z)%string
      with (key ++ String ":" (String " " (PyStr.of_int z)))%string.
    rewrite (split_on_line _ _ _ Hk).
    rewrite split_on_none; [reflexivity|].
    cbn [has_char]. rewrite (has_colon_plain _ (of_int_chars z)).
    reflexivity.
  - change (PyStr.strip (String " " (PyStr.of_int z)))
      with (PyStr.strip (PyStr.of_int z)).
    rewrite (strip_plain _ (of_int_chars z)).
    apply parse_of_int.
Qed.

(** The free counter line does not name the total counter. *)
Lemma free_line_not_total (s : string) :
  all_chars digit_or_minus s = true ->
  PyStr.contains "total_memory" ("free_memory : " ++ s)%string = false.
Proof.
  intro H. cbn [String.append PyStr.contains String.prefix].
  repeat match goal with
         | |- context [ascii_dec ?a ?b] =>
             destruct (ascii_dec a b) as [E|_]; [discriminate E|]
         end.
  cbn [orb]. apply contains_plain; [reflexivity|exact H].
Qed.

(** On the two counter lines, in decimal, the loop of
    [get_available_resource] reads the two counters. *)
Lemma memory_info_loop_counters (total free : Z) :
  memory_info_loop
    [ ("total_memory : " ++ PyStr.of_int total)%string;
      ("free_memory : " ++ PyStr.of_int free)%string ] 0 0
  = Ok (total, free).
Proof.
  assert (Ht : PyStr.contains "total_memory"
                 ("total_memory : " ++ PyStr.of_int total)%string = true)
    by exact (contains_append "total_memory" (" : " ++ PyStr.of_int total)).
  assert (Hf : PyStr.contains "free_memory"
                 ("free_memory : " ++ PyStr.of_int free)%string = true)
    by exact (contains_append "free_memory" (" : " ++ PyStr.of_int free)).
  destruct (counter_field "total_memory " total eq_refl) as [Gt Pt].
  destruct (counter_field "free_memory " free eq_refl) as [Gf Pf].
  change ("total_memory " ++ ": " ++ PyStr.of_int total)%string
    with ("total_memory : " ++ PyStr.of_int total)%string in Gt.
  change ("free_memory " ++ ": " ++ PyStr.of_int free)%string
    with ("free_memory : " ++ PyStr.of_int free)%string in Gf.
  cbn [memory_info_loop].
  rewrite Ht, Gt. cbn [rbind]. rewrite Pt. cbn [rbind].
  rewrite (free_line_not_total _ (of_int_chars free)), Hf, Gf.
  cbn [rbind]. rewrite Pf. reflexivity.
Qed.

(** X9: when the memory information is the two counter lines, the
    snapshot reports the counters of those lines, in units of 1024. *)
Lemma get_available_resource_counters
      (os_run : trace -> list string -> proc_outcome)
      (nodename : string) (t : trace)
      (memory_text err1 cpu_text err2 : string) (total free : Z) :
  os_run (at_exec t) info_argv = Exited 0 memory_text err1 ->
  os_run (at_cpu_exec t) cpu_argv = Exited 0 cpu_text err2 ->
  PyStr.splitlines memory_text
  = [ ("total_memory : " ++ PyStr.of_int total)%string;
      ("free_memory : " ++ PyStr.of_int free)%string ] ->
  fst (get_available_resource os_run nodename t)
  = Ok (snapshot nodename total free
          (Z.of_nat (List.length (PyStr.splitlines cpu_text)))).
Proof.
  intros E1 E2 L. apply get_available_resource_returns.
  exists memory_text, err1, cpu_text, err2, total, free.
  rewrite L, memory_info_loop_counters. repeat split; assumption.
Qed.

(** * Further properties of the driver *)

(** The result of [_execute_xl] when its process exits. *)
Lemma execute_xl_exited (os_run : trace -> list string -> proc_outcome)
      (cmd : list string) (t : trace) (rc : Z) (out err : string) :
  os_run (at_exec t) (xl_path :: cmd) = Exited rc out err ->
  fst (_execute_xl os_run cmd t)
  = if rc =? 0
    then Ok {| args := xl_path :: cmd; returncode := rc;
               stdout := Some out; stderr := Some err |}
    else Raise (NovaException (Some err)).
Proof.
  intro E. rewrite execute_xl_unfold. cbv zeta. rewrite E.
  destruct (rc =? 0); reflexivity.
Qed.

(** ** Queries *)

(** X1, on a host with one running domain of 512 MiB and two CPUs. *)
Lemma get_info_well_formed_witness :
  fst (get_info healthy_host one_domain vm1 [])
  = Ok {| state := RUNNING;
          max_mem := PyInt 536870912;
          mem := PyInt 268435456;
          num_cpu := PyInt 2;
          cpu_time := 0 |}.
Proof.
  apply (get_info_well_formed healthy_host one_domain vm1 [] "" ""
           "running" 524288 262144 2
           [("domid", PyInt 3); ("state", PyStr "running");
            ("maxmem", PyInt 524288); ("mem", PyInt 262144);
            ("vcpus", PyInt 2)] []);
    reflexivity.
Defined.

Section MoreQueryFacts.

Variable os_run : trace -> list string -> proc_outcome.
Variable json_loads : string -> result pyval.

(** The body of [get_info] starts the listing process and no other. *)
Lemma get_info_body_execs (instance : Instance) (t : trace) :
  execs (snd (get_info_body os_run json_loads instance t))
  = execs t ++ [[xl_path; "list"; "-l"; name instance]].
Proof.
  unfold get_info_body. unfold bind at 1.
  pose proof (execute_xl_execs os_run ["list"; "-l"; name instance] t) as X.
  destruct (_execute_xl os_run ["list"; "-l"; name instance] t)
    as [[out|e] t1]; cbn [snd] in X; [|exact X].
  unfold bind, lift, raise.
  destruct (match stdout out with
            | Some s => json_loads s
            | None => Raise TypeError
            end) as [data|e]; [|exact X].
  destruct (negb (truthy data)); [exact X|].
  destruct (getitem_int data 0) as [domain_info|e]; [|exact X].
  destruct (getitem_str domain_info "state") as [st|e]; exact X.
Qed.

(** X2: whatever the host answers and however the answer decodes,
    [get_info] starts exactly one process, [xl list -l] on the name of the
    instance. *)
Theorem get_info_single_query (instance : Instance) (t : trace) :
  execs (snd (get_info os_run json_loads instance t))
  = execs t ++ [[xl_path; "list"; "-l"; name instance]].
Proof.
  unfold get_info, try_except.
  pose proof (get_info_body_execs instance t) as X.
  destruct (get_info_body os_run json_loads instance t) as [[info|e] t1];
    cbn [snd] in X |- *; [exact X|].
  unfold bind, emit, raise. cbn [snd].
  rewrite execs_app, X. cbn [execs]. apply List.app_nil_r.
Qed.

End MoreQueryFacts.

(** ** Reboot and destroy *)

Section MoreLifecycleFacts.

Variable os_run : trace -> list string -> proc_outcome.

(** X3: [reboot] returns when its process exits with status 0, raises
    [NovaException] with the standard error of the process when it exits
    with another status, and raises the operating system's error when the
    process cannot be started: it catches nothing. *)
Theorem reboot_outcome (instance : Instance) (reboot_type : string)
        (t : trace) :
  let verb := if String.eqb reboot_type "SOFT" then "reboot" else "reset" in
  match os_run (at_exec t) [xl_path; verb; name instance] with
  | Exited rc out err =>
      if rc =? 0 then fst (reboot os_run instance reboot_type t) = Ok tt
      else fst (reboot os_run instance reboot_type t)
           = Raise (NovaException (Some err))
  | NotStarted e =>
      fst (reboot os_run instance reboot_type t) = Raise (OSError e)
  end.
Proof.
  cbv zeta. unfold reboot.
  destruct (String.eqb reboot_type "SOFT");
    rewrite (proj2 (bind_ret_tt _ _)), execute_xl_unfold; cbv zeta;
    (destruct (os_run _ _) as [rc out err|e];
     [destruct (rc =? 0)|]; reflexivity).
Qed.

(** X4: on a host where every [xl] command fails with the same status and
    message, [destroy] without the disks returns and [reboot] raises. *)
Theorem destroy_returns_where_reboot_raises
        (instance : Instance) (reboot_type : string) (t : trace)
        (rc : Z) (out err : string) :
  (forall t' cmd, os_run t' (xl_path :: cmd) = Exited rc out err) ->
  rc <> 0 ->
  fst (destroy os_run instance false t) = Ok tt
  /\ fst (reboot os_run instance reboot_type t)
     = Raise (NovaException (Some err)).
Proof.
  intros H Hrc. split.
  - unfold destroy.
    destruct (destroy_domain_step os_run instance t) as (t1 & E1 & _).
    unfold bind at 1. rewrite E1. reflexivity.
  - unfold reboot.
    destruct (String.eqb reboot_type "SOFT");
      rewrite (proj2 (bind_ret_tt _ _)),
        (execute_xl_exited os_run _ t rc out err (H _ _));
      (destruct (Z.eqb_spec rc 0); [contradiction|reflexivity]).
Qed.

(** X5: the path that [destroy] passes to [rm -rf] is [/etc/xen/]
    followed by the name of the instance, unless the name starts with a
    slash: then it is the name itself. *)
Theorem destroy_directory (instance : Instance) (t : trace) :
  execs (snd (destroy os_run instance true t))
  = execs t
    ++ [ [xl_path; "destroy"; name instance];
         ["rm"; "-rf";
          if String.prefix "/" (name instance) then name instance
          else ("/etc/xen/" ++ name instance)%string] ].
Proof.
  rewrite destroy_execs. unfold rm_argv, os_path_join.
  destruct (String.prefix "/" (name instance)); reflexivity.
Qed.

End MoreLifecycleFacts.

(** X6, on a host where [xl destroy] fails and [rm] is missing. *)
Lemma destroy_rm_not_started_witness :
  fst (destroy host_without_rm vm1 true []) = Raise (OSError FileNotFoundError).
Proof.
  apply (destroy_rm_not_started host_without_rm vm1 [] FileNotFoundError).
  intro t'. reflexivity.
Defined.

(** X4, on a host where every command exits with status 1. *)
Lemma destroy_returns_where_reboot_raises_witness :
  fst (destroy failing_host vm1 false []) = Ok tt
  /\ fst (reboot failing_host vm1 "HARD" [])
     = Raise (NovaException (Some "libxl: error: domain not found")).
Proof.
  apply (destroy_returns_where_reboot_raises failing_host vm1 "HARD" []
           1 "" "libxl: error: domain not found");
    [intros t' cmd; reflexivity|discriminate].
Defined.

(** ** Listing *)

(** When the loop of [list_instances] returns, it has added one name for
    each line, and no line was blank. *)
Lemma list_instances_loop_returns (rest acc names : list string) :
  list_instances_loop rest acc = Ok names ->
  List.length names = (List.length acc + List.length rest)%nat
  /\ Forall (fun line => is_blank line = false) rest.
Proof.
  revert acc. induction rest as [|line rest IH]; intros acc H.
  - injection H as <-. split; [cbn [List.length]; lia|constructor].
  - cbn [list_instances_loop] in H.
    destruct (PyStr.split line) as [|tok toks] eqn:E; [discriminate H|].
    unfold list_getitem, seq_index in H. cbn -[list_instances_loop] in H.
    destruct (IH _ H) as [L F]. split.
    + rewrite L, length_app. cbn [List.length]. lia.
    + constructor; [|exact F].
      destruct (is_blank line) eqn:B; [|reflexivity].
      apply split_nil_iff_blank in B. congruence.
Qed.

Section MoreListingFacts.

Variable os_run : trace -> list string -> proc_outcome.

(** X7: a blank line after the first line, with lines that have a token
    before it, ends [list_instances] with [IndexError]: the names found
    before the blank line are lost, and the lines after it are not read. *)
Theorem list_instances_blank_line (t : trace) (text err line : string)
        (before after : list string) :
  os_run (at_exec t) [xl_path; "list"] = Exited 0 text err ->
  List.tl (PyStr.splitlines text) = before ++ line :: after ->
  Forall (fun l => is_blank l = false) before ->
  is_blank line = true ->
  fst (list_instances os_run t) = Raise IndexError.
Proof.
  intros E S Hb Hl. rewrite (list_instances_unfold _ _ _ _ E), S.
  apply list_instances_loop_blank; assumption.
Qed.

(** X8: [list_instances] never drops a line: when it returns, it returns
    as many names as the output has lines after the first, and none of
    those lines is blank. *)
Theorem list_instances_one_per_line (t : trace) (text err : string)
        (names : list string) :
  os_run (at_exec t) [xl_path; "list"] = Exited 0 text err ->
  fst (list_instances os_run t) = Ok names ->
  List.length names = List.length (List.tl (PyStr.splitlines text))
  /\ Forall (fun line => is_blank line = false)
            (List.tl (PyStr.splitlines text)).
Proof.
  intros E H. rewrite (list_instances_unfold _ _ _ _ E) in H.
  exact (list_instances_loop_returns _ _ _ H).
Qed.

End MoreListingFacts.

(** X7, on a listing with a line of blanks between two domains. *)
Lemma list_instances_blank_line_witness :
  fst (list_instances host_blank_line []) = Raise IndexError.
Proof.
  apply (list_instances_blank_line host_blank_line []
           (lines ["NAME STATE MEM VCPUS"; "vm1 running 512 2"; "   ";
                   "vm2 paused 256 1"]) "" "   "
           ["vm1 running 512 2"] ["vm2 paused 256 1"]);
    try reflexivity.
  apply Forall_cons; [vm_compute; reflexivity|apply Forall_nil].
Defined.

(** X8, on a listing of two domains. *)
Lemma list_instances_one_per_line_witness :
  fst (list_instances healthy_host []) = Ok ["vm1"; "vm2"]
  /\ List.length ["vm1"; "vm2"] = 2%nat
  /\ Forall (fun line => is_blank line = false)
            ["vm1 running 512 2"; "vm2 paused 256 1"].
Proof.
  split; [reflexivity|].
  exact (list_instances_one_per_line healthy_host []
           (lines ["NAME STATE MEM VCPUS"; "vm1 running 512 2";
                   "vm2 paused 256 1"]) "" ["vm1"; "vm2"]
           eq_refl eq_refl).
Defined.

(** ** Host resources *)

(** X9, on a host that reports 8192 and 2048. *)
Lemma get_available_resource_counters_witness :
  fst (get_available_resource healthy_host "node1" [])
  = Ok (snapshot "node1" 8192 2048 4).
Proof.
  apply (get_available_resource_counters healthy_host "node1" []
           (lines ["total_memory : 8192"; "free_memory : 2048"]) ""
           (lines ["cpu0"; "cpu1"; "cpu2"; "cpu3"]) "" 8192 2048);
    reflexivity.
Defined.

(** The loop of [get_available_resource] over two runs of lines is the
    loop over the second run, from the counters that the first leaves. *)
Lemma memory_info_loop_app (l1 l2 : list string) (total free : Z) :
  memory_info_loop (l1 ++ l2) total free
  = (c <-! memory_info_loop l1 total free ;;
     memory_info_loop l2 (fst c) (snd c)).
Proof.
  revert total free. induction l1 as [|line l1 IH]; intros total free.
  - reflexivity.
  - cbn [app memory_info_loop].
    destruct (PyStr.contains "total_memory" line);
      [|destruct (PyStr.contains "free_memory" line)];
      try apply IH;
      (destruct (list_getitem (PyStr.split_on ":" line) 1) as [field|e];
       [|reflexivity]; cbn [rbind];
       destruct (PyInt.parse (PyStr.strip field)) as [v|e];
       [|reflexivity]; cbn [rbind]; apply IH).
Qed.

(** A line that is read as a counter and whose value cannot be read ends
    the loop with the exception of the reading. *)
Lemma memory_info_loop_bad_counter (before after : list string)
      (line : string) (total free : Z) (e : exn) :
  Forall (fun l => is_counter_line l = false) before ->
  is_counter_line line = true ->
  counter_value line = Raise e ->
  memory_info_loop (before ++ line :: after) total free = Raise e.
Proof.
  intros Hb Hl Hv. rewrite memory_info_loop_app.
  rewrite memory_info_loop_unmatched.
  2:{ apply Forall_impl with (2 := Hb). intros l H.
      apply orb_false_elim in H. exact H. }
  cbn [rbind fst snd memory_info_loop].
  unfold is_counter_line in Hl. unfold counter_value in Hv.
  destruct (PyStr.contains "total_memory" line);
    [|cbn [orb] in Hl; rewrite Hl];
    (destruct (list_getitem (PyStr.split_on ":" line) 1) as [field|e'];
     cbn [rbind] in Hv |- *;
     [rewrite Hv; reflexivity|injection Hv as ->; reflexivity]).
Qed.

(** A line without a colon has no value to read. *)
Lemma counter_value_no_colon (line : string) :
  has_char ":" line = false -> counter_value line = Raise IndexError.
Proof.
  intro H. unfold counter_value. rewrite (split_on_none _ _ H). reflexivity.
Qed.

Section MoreResourceFacts.

Variable os_run : trace -> list string -> proc_outcome.

(** X10: when a line of the memory information names a counter and its
    value cannot be read (no colon: [IndexError]; no integer after the
    colon: [ValueError]), [get_available_resource] ends with that
    exception, and does not ask for the CPU information. *)
Theorem get_available_resource_bad_counter
        (nodename : string) (t : trace) (memory_text err1 line : string)
        (before after : list string) (e : exn) :
  os_run (at_exec t) info_argv = Exited 0 memory_text err1 ->
  PyStr.splitlines memory_text = before ++ line :: after ->
  Forall (fun l => is_counter_line l = false) before ->
  is_counter_line line = true ->
  counter_value line = Raise e ->
  fst (get_available_resource os_run nodename t) = Raise e
  /\ execs (snd (get_available_resource os_run nodename t))
     = execs t ++ [info_argv].
Proof.
  intros E S Hb Hl Hv.
  assert (R : get_available_resource os_run nodename t
              = (Raise e, at_exec t ++ [Exec info_argv])).
  { unfold get_available_resource. unfold bind at 1.
    rewrite execute_xl_unfold. cbv zeta. fold info_argv. rewrite E.
    cbn [Z.eqb]. unfold bind at 1. unfold lift at 1. cbn [captured stdout].
    unfold bind at 1. unfold lift at 1.
    rewrite S, (memory_info_loop_bad_counter _ _ _ _ _ _ Hb Hl Hv).
    reflexivity. }
  rewrite R. cbn [fst snd]. split; [reflexivity|].
  rewrite execs_app, execs_at_exec. reflexivity.
Qed.

(** X11: when the free counter exceeds the total counter, as it does when
    only the free counter is reported, the used memory of the snapshot is
    negative. *)
Theorem get_available_resource_negative_usage
        (nodename : string) (t : trace)
        (memory_text err1 cpu_text err2 : string) (total free : Z) :
  os_run (at_exec t) info_argv = Exited 0 memory_text err1 ->
  os_run (at_cpu_exec t) cpu_argv = Exited 0 cpu_text err2 ->
  memory_info_loop (PyStr.splitlines memory_text) 0 0 = Ok (total, free) ->
  total < free ->
  exists r,
    fst (get_available_resource os_run nodename t) = Ok r
    /\ memory_mb_used r < 0.
Proof.
  intros E1 E2 L Hlt. eexists. split.
  - apply get_available_resource_returns.
    exists memory_text, err1, cpu_text, err2, total, free.
    repeat split; eassumption.
  - cbn [snapshot memory_mb_used].
    apply Z.div_lt_upper_bound; lia.
Qed.

End MoreResourceFacts.

(** X12: a counter line at the end of the memory information replaces
    the counter read from the lines before it, and leaves the other
    counter as those lines gave it. *)
Theorem later_counter_line_wins (lines : list string) (v total free : Z) :
  memory_info_loop
    (lines ++ [("total_memory : " ++ PyStr.of_int v)%string]) total free
  = (c <-! memory_info_loop lines total free ;; Ok (v, snd c))
  /\ memory_info_loop
       (lines ++ [("free_memory : " ++ PyStr.of_int v)%string]) total free
     = (c <-! memory_info_loop lines total free ;; Ok (fst c, v)).
Proof.
  assert (Ht : PyStr.contains "total_memory"
                 ("total_memory : " ++ PyStr.of_int v)%string = true)
    by exact (contains_append "total_memory" (" : " ++ PyStr.of_int v)).
  assert (Hf : PyStr.contains "free_memory"
                 ("free_memory : " ++ PyStr.of_int v)%string = true)
    by exact (contains_append "free_memory" (" : " ++ PyStr.of_int v)).
  destruct (counter_field "total_memory " v eq_refl) as [Gt Pt].
  destruct (counter_field "free_memory " v eq_refl) as [Gf Pf].
  change ("total_memory " ++ ": " ++ PyStr.of_int v)%string
    with ("total_memory : " ++ PyStr.of_int v)%string in Gt.
  change ("free_memory " ++ ": " ++ PyStr.of_int v)%string
    with ("free_memory : " ++ PyStr.of_int v)%string in Gf.
  split; rewrite memory_info_loop_app;
    destruct (memory_info_loop lines total free) as [[a b]|e];
    try reflexivity; cbn [rbind fst snd memory_info_loop].
  - rewrite Ht, Gt. cbn [rbind]. rewrite Pt. reflexivity.
  - rewrite (free_line_not_total _ (of_int_chars v)), Hf, Gf.
    cbn [rbind]. rewrite Pf. reflexivity.
Qed.

(** X10, on a host whose total memory line has no colon. *)
Lemma get_available_resource_bad_counter_witness :
  fst (get_available_resource host_bad_counter "node1" []) = Raise IndexError
  /\ execs (snd (get_available_resource host_bad_counter "node1" []))
     = [info_argv].
Proof.
  apply (get_available_resource_bad_counter host_bad_counter "node1" []
           (lines ["host : xen1"; "total_memory 8192"; "free_memory : 2048"])
           "" "total_memory 8192" ["host : xen1"] ["free_memory : 2048"]
           IndexError);
    try reflexivity.
  apply Forall_cons; [vm_compute; reflexivity|apply Forall_nil].
Defined.

(** X11, on a host that reports its free memory only. *)
Lemma get_available_resource_negative_usage_witness :
  exists r,
    fst (get_available_resource host_free_only "node1" []) = Ok r
    /\ memory_mb_used r < 0.
Proof.
  apply (get_available_resource_negative_usage host_free_only "node1" []
           (lines ["free_memory : 2048"]) "" (lines ["cpu0"]) "" 0 2048);
    reflexivity.
Defined.

(** ** Configurations *)


(** The first four lines of a configuration, when neither the name nor
    the identifier of the instance holds a line feed. *)
Lemma get_xl_config_lines4 (instance : Instance) :
  has_char PyStr.LF (name instance) = false ->
  has_char PyStr.LF (uuid instance) = false ->
  exists rest,
    PyStr.split_on PyStr.LF (_get_xl_config instance)
    = ("name = '" ++ name instance ++ "'")%string
      :: ("memory = " ++ PyStr.of_int (flavor_memory_mb (flavor instance)))%string
      :: ("vcpus = " ++ PyStr.of_int (flavor_vcpus (flavor instance)))%string
      :: ("uuid = '" ++ uuid instance ++ "'")%string
      :: rest.
Proof.
  intros Hn Hu. unfold _get_xl_config. cbv zeta.
  rewrite split_on_join.
  2:{ rewrite !has_char_append, Hn. reflexivity. }
  rewrite split_on_join.
  2:{ rewrite has_char_append, (has_char_plain _ (of_int_chars _)).
      reflexivity. }
  rewrite split_on_join.
  2:{ rewrite has_char_append, (has_char_plain _ (of_int_chars _)).
      reflexivity. }
  rewrite split_on_join.
  2:{ rewrite !has_char_append, Hu. reflexivity. }
  eexists. reflexivity.
Qed.


(** A string is determined by what it is with one character after it. *)
Lemma append_char_inj (c : ascii) (a b : string) :
  (a ++ String c "")%string = (b ++ String c "")%string -> a = b.
Proof.
  revert b. induction a as [|x a IH]; intros [|y b] H;
    cbn [String.append] in H.
  - reflexivity.
  - injection H as _ H. destruct b; discriminate H.
  - injection H as _ H. destruct a; discriminate H.
  - injection H as -> H. rewrite (IH _ H). reflexivity.
Qed.

Lemma of_int_inj (a b : Z) : PyStr.of_int a = PyStr.of_int b -> a = b.
Proof.
  intro H. pose proof (parse_of_int a) as Pa. rewrite H, parse_of_int in Pa.
  injection Pa as <-. reflexivity.
Qed.

(** X14: on instances whose names and identifiers hold no line feed,
    [_get_xl_config] is injective: two such instances with the same
    configuration have the same name, identifier, memory size and number
    of CPUs. *)
Theorem get_xl_config_injective (i1 i2 : Instance) :
  has_char PyStr.LF (name i1) = false ->
  has_char PyStr.LF (uuid i1) = false ->
  has_char PyStr.LF (name i2) = false ->
  has_char PyStr.LF (uuid i2) = false ->
  _get_xl_config i1 = _get_xl_config i2 ->
  i1 = i2.
Proof.
  intros L1 LU1 L2 LU2 E.
  destruct (get_xl_config_lines4 i1 L1 LU1) as [rest1 S1].
  destruct (get_xl_config_lines4 i2 L2 LU2) as [rest2 S2].
  rewrite E, S2 in S1. injection S1 as En Em Ev Eu _.
  apply append_char_inj in En. apply append_char_inj in Eu.
  apply of_int_inj in Em. apply of_int_inj in Ev.
  destruct i1 as [n1 u1 [m1 v1]], i2 as [n2 u2 [m2 v2]].
  cbn in En, Em, Ev, Eu. subst. reflexivity.
Qed.


(** X14, on an ordinary instance and a copy of it. *)
Lemma get_xl_config_injective_witness :
  vm1 = {| name := "vm1"; uuid := uuid vm1; flavor := flavor vm1 |}.
Proof.
  apply (get_xl_config_injective vm1
           {| name := "vm1"; uuid := uuid vm1; flavor := flavor vm1 |});
    reflexivity.
Defined.




(** ** Spawn *)

Section SpawnFacts.

Variable os_run : trace -> list string -> proc_outcome.
Variable fs_run : sys -> fs_op -> option oserror.

(** [spawn], step by step. *)
Lemma spawn_unfold (instance : Instance) (power_on : bool) (s : sys) :
  spawn os_run fs_run instance power_on s =
  let made := MakeDirs (instance_dir instance) in
  let written := WriteFile (cfg_path instance) (_get_xl_config instance) in
  match fs_run s made with
  | Some e => (Raise (OSError e), sys_after s [(made, Some e)] (procs s))
  | None =>
      let s1 := sys_after s [(made, None)] (procs s) in
      match fs_run s1 written with
      | Some e =>
          (Raise (OSError e),
           sys_after s [(made, None); (written, Some e)] (procs s))
      | None =>
          let ops := [(made, None); (written, None)] in
          match _execute_xl os_run ["create"; cfg_path instance] (procs s) with
          | (Raise e, t1) => (Raise e, sys_after s ops t1)
          | (Ok _, t1) =>
              if power_on then (Ok tt, sys_after s ops t1)
              else
                match _execute_xl os_run ["pause"; name instance] t1 with
                | (Raise e, t2) => (Raise e, sys_after s ops t2)
                | (Ok _, t2) => (Ok tt, sys_after s ops t2)
                end
          end
      end
  end.
Proof.
  unfold spawn, fbind, fs_do, on_procs, fret, sys_after. cbv zeta.
  fold (instance_dir instance). fold (cfg_path instance).
  destruct (fs_run s (MakeDirs (instance_dir instance))) as [e|];
    [reflexivity|].
  cbn [files procs].
  destruct (fs_run _ (WriteFile _ _)) as [e|];
    cbn [files procs]; rewrite <- ?app_assoc; [reflexivity|].
  cbn [app].
  destruct (_execute_xl os_run ["create"; cfg_path instance] (procs s))
    as [[c|e] t1]; [|reflexivity].
  cbn [files procs]. destruct power_on; cbn [negb]; [reflexivity|].
  cbv beta iota. cbn [files procs].
  destruct (_execute_xl os_run ["pause"; name instance] t1)
    as [[c'|e] t2]; reflexivity.
Qed.

(** X16: on a host where every file operation and every command succeeds,
    [spawn] returns; it has made the directory of the instance, written
    the configuration of the instance in the file [config] of that
    directory, and started [xl create] on that file, followed by
    [xl pause] on the name of the instance exactly when the instance is
    not to be powered on. *)
Theorem spawn_success (instance : Instance) (power_on : bool) (s : sys) :
  (forall s' op, fs_run s' op = None) ->
  (forall t' argv, exists out err, os_run t' argv = Exited 0 out err) ->
  fst (spawn os_run fs_run instance power_on s) = Ok tt
  /\ files (snd (spawn os_run fs_run instance power_on s))
     = files s
       ++ [ (MakeDirs (instance_dir instance), None);
            (WriteFile (cfg_path instance) (_get_xl_config instance), None) ]
  /\ execs (procs (snd (spawn os_run fs_run instance power_on s)))
     = execs (procs s)
       ++ [xl_path; "create"; cfg_path instance]
          :: (if power_on then []
              else [[xl_path; "pause"; name instance]]).
Proof.
  intros Hfs Hos. rewrite spawn_unfold. cbv zeta. rewrite !Hfs.
  pose proof (execute_xl_execs os_run ["create"; cfg_path instance] (procs s))
    as X1.
  destruct (Hos (at_exec (procs s)) (xl_path :: ["create"; cfg_path instance]))
    as (out1 & err1 & E1).
  pose proof (execute_xl_exited os_run _ _ _ _ _ E1) as O1.
  cbn [Z.eqb] in O1.
  destruct (_execute_xl os_run ["create"; cfg_path instance] (procs s))
    as [[c|e] t1]; cbn [fst snd] in X1, O1; [|discriminate O1].
  destruct power_on.
  - cbn [fst snd files procs sys_after]. repeat split. exact X1.
  - pose proof (execute_xl_execs os_run ["pause"; name instance] t1) as X2.
    destruct (Hos (at_exec t1) (xl_path :: ["pause"; name instance]))
      as (out2 & err2 & E2).
    pose proof (execute_xl_exited os_run _ _ _ _ _ E2) as O2.
    cbn [Z.eqb] in O2.
    destruct (_execute_xl os_run ["pause"; name instance] t1)
      as [[c'|e] t2]; cbn [fst snd] in X2, O2; [|discriminate O2].
    cbn [fst snd files procs sys_after]. repeat split.
    rewrite X2, X1, <- app_assoc. reflexivity.
Qed.

(** X17: when [xl create] exits with a status other than 0, [spawn]
    raises [NovaException] with the standard error of the command; the
    directory and the configuration file stay as they were made, and no
    other process is started: the instance is not paused and nothing is
    removed. *)
Theorem spawn_create_fails (instance : Instance) (power_on : bool) (s : sys)
        (rc : Z) (out err : string) :
  (forall s' op, fs_run s' op = None) ->
  os_run (at_exec (procs s)) [xl_path; "create"; cfg_path instance]
  = Exited rc out err ->
  rc <> 0 ->
  fst (spawn os_run fs_run instance power_on s)
  = Raise (NovaException (Some err))
  /\ files (snd (spawn os_run fs_run instance power_on s))
     = files s
       ++ [ (MakeDirs (instance_dir instance), None);
            (WriteFile (cfg_path instance) (_get_xl_config instance), None) ]
  /\ execs (procs (snd (spawn os_run fs_run instance power_on s)))
     = execs (procs s) ++ [[xl_path; "create"; cfg_path instance]].
Proof.
  intros Hfs E Hrc. rewrite spawn_unfold. cbv zeta. rewrite !Hfs.
  pose proof (execute_xl_execs os_run ["create"; cfg_path instance] (procs s))
    as X1.
  pose proof (execute_xl_exited os_run _ _ _ _ _ E) as O1.
  destruct (Z.eqb_spec rc 0) as [|_]; [contradiction|].
  destruct (_execute_xl os_run ["create"; cfg_path instance] (procs s))
    as [[c|e] t1]; cbn [fst snd] in X1, O1; [discriminate O1|].
  injection O1 as ->.
  cbn [fst snd files procs sys_after]. repeat split. exact X1.
Qed.

(** X18: when the directory cannot be made, or the configuration cannot
    be written, [spawn] raises the error of the operating system and
    starts no process. *)
Theorem spawn_file_error (instance : Instance) (power_on : bool) (s : sys)
        (e : oserror) :
  fs_run s (MakeDirs (instance_dir instance)) = Some e
  \/ (fs_run s (MakeDirs (instance_dir instance)) = None
      /\ fs_run (sys_after s [(MakeDirs (instance_dir instance), None)]
                   (procs s))
           (WriteFile (cfg_path instance) (_get_xl_config instance))
         = Some e) ->
  fst (spawn os_run fs_run instance power_on s) = Raise (OSError e)
  /\ procs (snd (spawn os_run fs_run instance power_on s)) = procs s.
Proof.
  rewrite spawn_unfold. cbv zeta.
  intros [H|[H1 H2]].
  - rewrite H. split; reflexivity.
  - rewrite H1, H2. split; reflexivity.
Qed.

(** X19: when the instance is created and cannot be paused, [spawn]
    raises [NovaException] and the instance stays created: [xl create]
    and [xl pause] are the processes started, and nothing is destroyed. *)
Theorem spawn_pause_fails (instance : Instance) (s : sys)
        (rc : Z) (out err : string) :
  (forall s' op, fs_run s' op = None) ->
  (forall t', exists out' err',
     os_run t' [xl_path; "create"; cfg_path instance] = Exited 0 out' err') ->
  (forall t', os_run t' [xl_path; "pause"; name instance]
              = Exited rc out err) ->
  rc <> 0 ->
  fst (spawn os_run fs_run instance false s)
  = Raise (NovaException (Some err))
  /\ execs (procs (snd (spawn os_run fs_run instance false s)))
     = execs (procs s)
       ++ [ [xl_path; "create"; cfg_path instance];
            [xl_path; "pause"; name instance] ].
Proof.
  intros Hfs Hc Hp Hrc. rewrite spawn_unfold. cbv zeta. rewrite !Hfs.
  pose proof (execute_xl_execs os_run ["create"; cfg_path instance] (procs s))
    as X1.
  destruct (Hc (at_exec (procs s))) as (out1 & err1 & E1).
  pose proof (execute_xl_exited os_run _ _ _ _ _ E1) as O1.
  cbn [Z.eqb] in O1.
  destruct (_execute_xl os_run ["create"; cfg_path instance] (procs s))
    as [[c|e] t1]; cbn [fst snd] in X1, O1; [|discriminate O1].
  pose proof (execute_xl_execs os_run ["pause"; name instance] t1) as X2.
  pose proof (execute_xl_exited os_run _ _ _ _ _ (Hp (at_exec t1))) as O2.
  destruct (Z.eqb_spec rc 0) as [|_]; [contradiction|].
  destruct (_execute_xl os_run ["pause"; name instance] t1)
    as [[c'|e] t2]; cbn [fst snd] in X2, O2; [discriminate O2|].
  injection O2 as ->.
  cbn [fst snd files procs sys_after]. split; [reflexivity|].
  rewrite X2, X1, <- app_assoc. reflexivity.
Qed.

End SpawnFacts.

(** The path of the configuration file of an instance starts with the
    path of its directory. *)
Lemma cfg_path_under_dir (instance : Instance) :
  String.prefix (instance_dir instance) (cfg_path instance) = true.
Proof.
  unfold cfg_path, os_path_join at 1.
  change (String.prefix "/" "config") with false. cbv iota.
  destruct (_ || _); apply prefix_append.
Qed.

(** X20: [destroy] with the disks passes to [rm -rf] the path that
    [spawn] passes to [os.makedirs]. On a host where every file operation
    and every command succeeds, [spawn] calls [os.makedirs] once and
    writes one file, whose path starts with the path given to
    [os.makedirs]; [destroy] with the disks, after it, starts [xl destroy]
    and then [rm -rf] on that same path. *)
Theorem spawn_then_destroy
        (os_run : trace -> list string -> proc_outcome)
        (fs_run : sys -> fs_op -> option oserror)
        (instance : Instance) (power_on : bool) (s : sys) :
  (forall s' op, fs_run s' op = None) ->
  (forall t' argv, exists out err, os_run t' argv = Exited 0 out err) ->
  let s1 := snd (spawn os_run fs_run instance power_on s) in
  let t2 := snd (destroy os_run instance true (procs s1)) in
  exists dir path,
    files s1
    = files s ++ [ (MakeDirs dir, None);
                   (WriteFile path (_get_xl_config instance), None) ]
    /\ String.prefix dir path = true
    /\ execs t2
       = execs (procs s1)
         ++ [ [xl_path; "destroy"; name instance]; ["rm"; "-rf"; dir] ].
Proof.
  intros Hfs Hos s1 t2.
  exists (instance_dir instance), (cfg_path instance).
  split; [|split].
  - subst s1. rewrite spawn_unfold. cbv zeta. rewrite !Hfs.
    destruct (_execute_xl os_run ["create"; cfg_path instance] (procs s))
      as [[c|e] t1]; [|reflexivity].
    destruct power_on; [reflexivity|].
    destruct (_execute_xl os_run ["pause"; name instance] t1)
      as [[c'|e] t2']; reflexivity.
  - apply cfg_path_under_dir.
  - subst t2. apply destroy_execs.
Qed.

(** X16, on a host where every command succeeds, for an instance that is
    not to be powered on. *)
Lemma spawn_success_witness :
  fst (spawn host_empty_listing fs_ok vm1 false fresh) = Ok tt
  /\ files (snd (spawn host_empty_listing fs_ok vm1 false fresh))
     = [ (MakeDirs "/etc/xen/vm1", None);
         (WriteFile "/etc/xen/vm1/config" (_get_xl_config vm1), None) ]
  /\ execs (procs (snd (spawn host_empty_listing fs_ok vm1 false fresh)))
     = [ [xl_path; "create"; "/etc/xen/vm1/config"];
         [xl_path; "pause"; "vm1"] ].
Proof.
  apply (spawn_success host_empty_listing fs_ok vm1 false fresh).
  - intros s' op. reflexivity.
  - intros t' argv. exists "", "". reflexivity.
Defined.

(** X17, on a host where every command exits with status 1. *)
Lemma spawn_create_fails_witness :
  fst (spawn failing_host fs_ok vm1 false fresh)
  = Raise (NovaException (Some "libxl: error: domain not found"))
  /\ files (snd (spawn failing_host fs_ok vm1 false fresh))
     = [ (MakeDirs "/etc/xen/vm1", None);
         (WriteFile "/etc/xen/vm1/config" (_get_xl_config vm1), None) ]
  /\ execs (procs (snd (spawn failing_host fs_ok vm1 false fresh)))
     = [[xl_path; "create"; "/etc/xen/vm1/config"]].
Proof.
  apply (spawn_create_fails failing_host fs_ok vm1 false fresh 1 ""
           "libxl: error: domain not found");
    [intros s' op; reflexivity|reflexivity|discriminate].
Defined.

(** X18, on a file system where files cannot be written. *)
Lemma spawn_file_error_witness :
  fst (spawn healthy_host fs_no_files vm1 true fresh)
  = Raise (OSError PermissionError)
  /\ procs (snd (spawn healthy_host fs_no_files vm1 true fresh)) = [].
Proof.
  apply (spawn_file_error healthy_host fs_no_files vm1 true fresh
           PermissionError).
  right. split; reflexivity.
Defined.

(** X19, on a host where domains cannot be paused. *)
Lemma spawn_pause_fails_witness :
  fst (spawn host_no_pause fs_ok vm1 false fresh)
  = Raise (NovaException (Some "libxl: error: unable to pause"))
  /\ execs (procs (snd (spawn host_no_pause fs_ok vm1 false fresh)))
     = [ [xl_path; "create"; "/etc/xen/vm1/config"];
         [xl_path; "pause"; "vm1"] ].
Proof.
  apply (spawn_pause_fails host_no_pause fs_ok vm1 fresh 3 ""
           "libxl: error: unable to pause").
  - intros s' op. reflexivity.
  - intro t'. exists "", "". reflexivity.
  - intro t'. reflexivity.
  - discriminate.
Defined.

(** X20, on a host where every command succeeds. *)
Lemma spawn_then_destroy_witness :
  exists dir path,
    files (snd (spawn host_empty_listing fs_ok vm1 true fresh))
    = [ (MakeDirs dir, None); (WriteFile path (_get_xl_config vm1), None) ]
    /\ String.prefix dir path = true
    /\ execs (snd (destroy host_empty_listing vm1 true
                     (procs (snd (spawn host_empty_listing fs_ok vm1 true
                                    fresh)))))
       = execs (procs (snd (spawn host_empty_listing fs_ok vm1 true fresh)))
         ++ [ [xl_path; "destroy"; "vm1"]; ["rm"; "-rf"; dir] ].
Proof.
  apply (spawn_then_destroy host_empty_listing fs_ok vm1 true fresh).
  - intros s' op. reflexivity.
  - intros t' argv. exists "", "". reflexivity.
Defined.

(** ** Network interfaces *)

Section InterfaceFacts.

Variable os_run : trace -> list string -> proc_outcome.
Variable py_str : pyval -> string.

(** X21: when [vif] has no address, no network, or a network without a
    bridge (or is not made of dicts), [attach_interface] raises the
    exception of the failed lookup and starts no process. *)
Theorem attach_interface_malformed (instance : Instance) (vif : pyval)
        (t : trace) (e : exn) :
  (address <-! getitem_str vif "address" ;;
   network <-! getitem_str vif "network" ;;
   getitem_str network "bridge") = Raise e ->
  attach_interface os_run py_str instance vif t = (Raise e, t).
Proof.
  intro H. unfold attach_interface, bind, lift.
  destruct (getitem_str vif "address") as [address|e1]; cbn [rbind] in H;
    [|injection H as ->; reflexivity].
  destruct (getitem_str vif "network") as [network|e2]; cbn [rbind] in H;
    [|injection H as ->; reflexivity].
  destruct (getitem_str network "bridge") as [bridge|e3];
    [discriminate H|injection H as ->; reflexivity].
Qed.

(** X22: when [vif] holds an address and the bridge of a network,
    [attach_interface] starts one process, [xl network-attach] with the
    name of the instance, the address after [mac=] and the bridge after
    [bridge=]; it returns when the process exits with status 0 and raises
    [NovaException] with the standard error of the process when it exits
    with another status. *)
Theorem attach_interface_command (instance : Instance) (vif network : pyval)
        (address bridge : pyval) (t : trace) :
  getitem_str vif "address" = Ok address ->
  getitem_str vif "network" = Ok network ->
  getitem_str network "bridge" = Ok bridge ->
  let argv := [xl_path; "network-attach"; name instance;
               ("mac=" ++ py_str address)%string;
               ("bridge=" ++ py_str bridge)%string] in
  execs (snd (attach_interface os_run py_str instance vif t))
  = execs t ++ [argv]
  /\ match os_run (at_exec t) argv with
     | Exited rc out err =>
         if rc =? 0
         then fst (attach_interface os_run py_str instance vif t) = Ok tt
         else fst (attach_interface os_run py_str instance vif t)
              = Raise (NovaException (Some err))
     | NotStarted e =>
         fst (attach_interface os_run py_str instance vif t)
         = Raise (OSError e)
     end.
Proof.
  intros Ha Hn Hb argv.
  assert (R : attach_interface os_run py_str instance vif t
              = (_execute_xl os_run (List.tl argv) ;; ret tt) t).
  { unfold attach_interface.
    unfold bind at 1. unfold lift at 1. rewrite Ha.
    unfold bind at 1. unfold lift at 1. rewrite Hn.
    unfold bind at 1. unfold lift at 1. rewrite Hb. reflexivity. }
  rewrite R. split.
  - rewrite (proj1 (bind_ret_tt _ _)). apply execute_xl_execs.
  - rewrite (proj2 (bind_ret_tt _ _)), execute_xl_unfold. cbv zeta.
    change (xl_path :: List.tl argv) with argv.
    destruct (os_run (at_exec t) argv) as [rc out err|e];
      [destruct (rc =? 0)|]; reflexivity.
Qed.

(** X23: [detach_interface] raises the exception of the lookup and starts
    no process when [vif] has no [id]; otherwise it starts one process,
    [xl network-detach] with the name of the instance and the [id] as a
    string. *)
Theorem detach_interface_command (instance : Instance) (vif : pyval)
        (t : trace) :
  match getitem_str vif "id" with
  | Raise e => detach_interface os_run py_str instance vif t = (Raise e, t)
  | Ok id =>
      execs (snd (detach_interface os_run py_str instance vif t))
      = execs t ++ [[xl_path; "network-detach"; name instance; py_str id]]
  end.
Proof.
  unfold detach_interface. unfold bind at 1. unfold lift at 1.
  destruct (getitem_str vif "id") as [id|e]; [|reflexivity].
  rewrite (proj1 (bind_ret_tt _ _)). apply execute_xl_execs.
Qed.

End InterfaceFacts.

(** X21, on a [vif] whose network has no bridge. *)
Lemma attach_interface_malformed_witness :
  attach_interface healthy_host plain_str vm1
    (PyDict [("address", PyStr "fa:16:3e:4c:2d:11");
             ("network", PyDict [("label", PyStr "private")])]) []
  = (Raise KeyError, []).
Proof.
  apply (attach_interface_malformed healthy_host plain_str vm1 _ [] KeyError).
  reflexivity.
Defined.

(** X22, on a complete [vif]. *)
Lemma attach_interface_command_witness :
  execs (snd (attach_interface healthy_host plain_str vm1 vif1 []))
  = [[xl_path; "network-attach"; "vm1"; "mac=fa:16:3e:4c:2d:11";
      "bridge=xenbr0"]]
  /\ fst (attach_interface healthy_host plain_str vm1 vif1 []) = Ok tt.
Proof.
  exact (attach_interface_command healthy_host plain_str vm1 vif1
           (PyDict [("bridge", PyStr "xenbr0")])
           (PyStr "fa:16:3e:4c:2d:11") (PyStr "xenbr0") []
           eq_refl eq_refl eq_refl).
Defined.
